(** * googlesheets: fetch, render and parameter migration

    A shallow embedding of [googlesheets.py] (the Workbench module that
    downloads a Google Drive file and renders it as a table) and the
    properties its specification states about it.

    Python values are embedded as the inductive [pyval]; exceptions are the
    [Raise] results of an error monad; the file system and the HTTP requests
    a call performs are an explicit [World] threaded through the state and
    error monad [M]. The libraries the module calls (oauthlib, cjwmodule's
    HTTP client, cjwparquet, cjwparse, json) are the fields of the class
    [Collaborators]. *)

From stdpp Require Import gmap strings list fin_maps.
From Stdlib Require Import ZArith.
From Stdlib.Strings Require Import Byte.

#[local] Set Warnings "-register-all".
#[local] Open Scope string_scope.

(** ** Python values and exceptions *)

(** The values a [Dict[str, Any]] of params or secrets holds: what the host
    decodes from JSON (numbers are integers here). *)
Inductive pyval : Type :=
  | PNone
  | PBool (b : bool)
  | PInt (z : Z)
  | PStr (s : string)
  | PList (l : list pyval)
  | PDict (d : gmap string pyval).

(** [bool(v)], as [if v:] and [not v] evaluate it. *)
Definition truthy (v : pyval) : bool :=
  match v with
  | PNone => false
  | PBool b => b
  | PInt z => negb (z =? 0)%Z
  | PStr s => negb (String.eqb s EmptyString)
  | PList l => match l with [] => false | _ :: _ => true end
  | PDict d => negb (bool_decide (d = ∅))
  end.

(** [v == s] for a string literal [s]. *)
Definition py_eq_str (v : pyval) (s : string) : bool :=
  match v with
  | PStr s' => String.eqb s' s
  | _ => false
  end.

Inductive exn : Type :=
  | KeyError (key : string)
  | TypeError
  | AttributeError
  | RuntimeError (msg : string)
  | AssertionError
  | FileNotFoundError (filename : string)
  | LibraryError (name : string).

(** The outcome of a Python expression: a value or a raised exception. *)
Inductive res (A : Type) : Type :=
  | Return (a : A)
  | Raise (e : exn).
Arguments Return {A} a.
Arguments Raise {A} e.

#[global] Instance res_ret : MRet res := @Return.
#[global] Instance res_bind : MBind res := λ A B k r,
  match r with
  | Return a => k a
  | Raise e => Raise e
  end.

(** [d[k]] on a dict. *)
Definition dict_getitem (d : gmap string pyval) (k : string) : res pyval :=
  match d !! k with
  | Some v => Return v
  | None => Raise (KeyError k)
  end.

(** [v[k]] for a string key [k]: only a dict can be indexed by a string. *)
Definition py_getitem (v : pyval) (k : string) : res pyval :=
  match v with
  | PDict d => dict_getitem d k
  | _ => Raise TypeError
  end.

(** [k in v] for a string [k]: key test on a dict, substring test on a
    string, element test on a list; other values are not iterable. *)
Definition py_contains (k : string) (v : pyval) : res bool :=
  match v with
  | PDict d => Return (bool_decide (is_Some (d !! k)))
  | PStr s =>
      Return (match String.index 0 k s with Some _ => true | None => false end)
  | PList l => Return (existsb (λ x, py_eq_str x k) l)
  | _ => Raise TypeError
  end.

(** ** Localized messages (cjwmodule.i18n) *)

(** The named tuple [I18nMessage]: the fields [id], [arguments] and
    [source], as [test_secret_error] passes and reads them. A field holds
    whatever the caller passed. *)
Record I18nMessage : Type := mkI18nMessage {
  id : pyval;
  arguments : pyval;
  source : pyval;
}.

(** ** Results of fetch *)

(** Mimics cjworkbench.cjwkernel.types.RenderError; [quick_fixes] is a
    [List[None]]. *)
Record RenderError : Type := mkRenderError {
  message : I18nMessage;
  quick_fixes : list unit;
}.

(** Mimics cjworkbench.cjwkernel.types.FetchResult; [render] tests
    [path is not None]. *)
Record FetchResult : Type := mkFetchResult {
  path : option string;
  errors : list RenderError;
}.

(** ** The world: files and HTTP requests *)

(** One call of [httpfile.download]. *)
Record Request : Type := mkRequest {
  req_url : string;
  req_headers : gmap string string;
  req_output : string;
}.

(** The files on disk, by path, and the requests issued so far (a ghost log:
    the module itself keeps no such record). *)
Record World : Type := mkWorld {
  files : gmap string (list byte);
  requests : list Request;
}.

(** State and exceptions: an exception keeps the effects that preceded it. *)
Definition M (A : Type) : Type := World → res A * World.

#[global] Instance M_ret : MRet M := λ A a w, (Return a, w).
#[global] Instance M_bind : MBind M := λ A B k m w,
  match m w with
  | (Return a, w') => k a w'
  | (Raise e, w') => (Raise e, w')
  end.

Definition raise {A : Type} (e : exn) : M A := λ w, (Raise e, w).
Definition lift {A : Type} (r : res A) : M A := λ w, (r, w).

(** An operation of a library on the files alone. *)
Definition on_files {A : Type}
    (f : gmap string (list byte) → res A * gmap string (list byte)) : M A :=
  λ w, let '(r, fs) := f (files w) in
       (r, {| files := fs; requests := requests w |}).

Definition log_request (r : Request) : M unit :=
  λ w, (Return tt, {| files := files w; requests := requests w ++ [r] |}).

(** [os.truncate(path, length)]: the file must exist; it is cut, or padded
    with null bytes, to [n] bytes. *)
Definition os_truncate (p : string) (n : nat) : M unit :=
  on_files (λ fs,
    match fs !! p with
    | Some content =>
        (Return tt,
         <[p := (take n content ++ replicate (n - length content) x00)%list]> fs)
    | None => (Raise (FileNotFoundError p), fs)
    end).

(** A library call that only reads the files. *)
Definition reading {A : Type} (f : gmap string (list byte) → res A) : M A :=
  λ w, (f (files w), w).

(** ** The libraries the module calls *)

(** [oauth2.Client(client_id=..., token_type=..., access_token=...)]. *)
Record Client : Type := mkClient {
  client_id : pyval;
  token_type : pyval;
  access_token : pyval;
}.

(** How [await httpfile.download(...)] ends: it returns, or raises
    [HttpError.NotSuccess] (carrying the response), another [HttpError], or
    an exception of another class. *)
Inductive DownloadOutcome : Type :=
  | Downloaded
  | NotSuccess (status_code : Z) (i18n_message : I18nMessage)
  | HttpError (i18n_message : I18nMessage)
  | Crashed (e : exn).

Class Collaborators : Type := {
  (** [format(v)] of a value that is not a string, as an f-string does *)
  py_format : pyval → string;
  (** [cjwmodule.i18n.trans(id, default)]: the message of the module's
      catalog with that id *)
  trans : string → string → I18nMessage;
  (** the default values the declaration of [I18nMessage] gives its fields,
      by field name *)
  I18nMessage_defaults : gmap string pyval;
  (** [json.loads] *)
  json_loads : pyval → res pyval;
  (** [oauth2.Client.add_token(url, headers=...)]: the url and headers to
      request with *)
  add_token :
    Client → string → gmap string string → res (string * gmap string string);
  (** [httpfile.download(url, output_path, headers=...)] *)
  httpfile_download :
    string → string → gmap string string → gmap string (list byte) →
    DownloadOutcome * gmap string (list byte);
  (** [cjwparquet.file_has_parquet_magic_number(path)] *)
  file_has_parquet_magic_number :
    string → gmap string (list byte) → res bool;
  (** [cjwparquet.convert_parquet_file_to_arrow_file(input, output)] *)
  convert_parquet_file_to_arrow_file :
    string → string → gmap string (list byte) →
    res unit * gmap string (list byte);
  (** [httpfile.read(path)]: the headers and the body of a stored response *)
  httpfile_read :
    option string → gmap string (list byte) →
    res (list (string * string) * list byte);
  (** [httpfile.extract_first_header(headers, name)] *)
  extract_first_header : list (string * string) → string → option string;
  (** the values of the enum [cjwparse.api.MimeType], in iteration order *)
  MimeType : list string;
  (** [parse_file(body, encoding=None, mime_type=..., has_header=...,
      output_path=...)] *)
  parse_file :
    list byte → string → pyval → string → gmap string (list byte) →
    res (list I18nMessage) * gmap string (list byte);
}.

(** ** googlesheets.py *)

Section googlesheets.
Context `{Collaborators}.

Definition GDRIVE_API_URL : string := "https://www.googleapis.com/drive/v3".

(** A value interpolated in an f-string. *)
Definition py_fstring (v : pyval) : string :=
  match v with
  | PStr s => s
  | _ => py_format v
  end.

Definition _generate_google_sheet_url (sheet_id : pyval) : string :=
  GDRIVE_API_URL ++ "/files/" ++ py_fstring sheet_id
    ++ "/export?mimeType=text%2Fcsv".

Definition _generate_gdrive_file_url (sheet_id : pyval) : string :=
  GDRIVE_API_URL ++ "/files/" ++ py_fstring sheet_id ++ "?alt=media".

(** One argument of the call of [I18nMessage] with the keyword arguments
    [kwargs]: the value passed, else the default of the field. *)
Definition I18nMessage_field (kwargs : gmap string pyval) (name : string)
    : res pyval :=
  match kwargs !! name with
  | Some v => Return v
  | None =>
      match I18nMessage_defaults !! name with
      | Some v => Return v
      | None => Raise TypeError
      end
  end.

(** [I18nMessage] called with the keyword arguments [v] (a double-star
    call): [v] must be a mapping and each of its keys a field name. *)
Definition I18nMessage_kwargs (v : pyval) : res I18nMessage :=
  match v with
  | PDict kwargs =>
      if bool_decide
           (dom kwargs ⊆ ({["id"; "arguments"; "source"]} : gset string))
      then
        i ← I18nMessage_field kwargs "id";
        a ← I18nMessage_field kwargs "arguments";
        s ← I18nMessage_field kwargs "source";
        mret {| id := i; arguments := a; source := s |}
      else Raise TypeError
  | _ => Raise TypeError
  end.

Definition fetch_error (output_path : string) (message : I18nMessage)
    : M FetchResult :=
  _ ← os_truncate output_path 0;
  mret {| path := Some output_path;
          errors := [ {| message := message; quick_fixes := [] |} ] |}.

(** The first statement of [do_download]: the [url] and the reassigned
    [sheet_mime_type]. *)
Definition do_download_target (sheet_id sheet_mime_type : pyval)
    : string * pyval :=
  if py_eq_str sheet_mime_type "application/vnd.google-apps.spreadsheet"
  then (_generate_google_sheet_url sheet_id, PStr "text/csv")
  else (_generate_gdrive_file_url sheet_id, sheet_mime_type).

Definition do_download (sheet_id sheet_mime_type : pyval)
    (oauth2_client : Client) (output_path : string) : M FetchResult :=
  let '(url, sheet_mime_type) := do_download_target sheet_id sheet_mime_type in
  '(url, headers) ← lift (add_token oauth2_client url ∅);
  _ ← log_request {| req_url := url; req_headers := headers;
                     req_output := output_path |};
  outcome ← on_files (λ fs,
    let '(o, fs') := httpfile_download url output_path headers fs in
    (Return o, fs'));
  match outcome with
  | NotSuccess status_code i18n_message =>
      if (status_code =? 401)%Z then
        fetch_error output_path
          (trans "error.http.status401"
             "Invalid credentials. Please reconnect to Google Drive.")
      else if (status_code =? 403)%Z then
        fetch_error output_path
          (trans "error.http.status403"
             "You chose a file your logged-in user cannot access. Please reconnect to Google Drive or choose a different file.")
      else if (status_code =? 404)%Z then
        fetch_error output_path
          (trans "error.http.status404"
             "File not found. Please choose a different file.")
      else fetch_error output_path i18n_message
  | HttpError i18n_message => fetch_error output_path i18n_message
  | Crashed e => raise e
  | Downloaded => mret {| path := Some output_path; errors := [] |}
  end.

Definition _render_deprecated_parquet (input_path : string)
    (errors : list I18nMessage) (output_path : string)
    (params : gmap string pyval) : M (list I18nMessage) :=
  _ ← on_files (convert_parquet_file_to_arrow_file input_path output_path);
  has_header ← lift (dict_getitem params "has_header");
  if truthy has_header then mret errors
  else
    mret (errors ++
          [trans "error.parquet.cannotRemoveHeader"
             "Please re-download this file to disable header-row handling"])%list.

Definition _calculate_mime_type (content_type : string) : res string :=
  match find (λ mime_type, String.prefix mime_type content_type) MimeType with
  | Some mime_type => Return mime_type
  | None => Raise (RuntimeError ("Unsupported content_type " ++ content_type))
  end.

Definition _render_file (path : option string) (params : gmap string pyval)
    (output_path : string) : M (list I18nMessage) :=
  '(headers, body) ← reading (httpfile_read path);
  mime_type ←
    match extract_first_header headers "Content-Type" with
    | Some content_type => lift (_calculate_mime_type content_type)
    | None => raise AttributeError
    end;
  has_header ← lift (dict_getitem params "has_header");
  on_files (parse_file body mime_type has_header output_path).

Definition render (arrow_table : pyval) (params : gmap string pyval)
    (output_path : string) (fetch_result : option FetchResult)
    : M (list I18nMessage) :=
  match fetch_result with
  | None => mret []
  | Some fetch_result =>
      has_magic ←
        match path fetch_result with
        | Some p => reading (file_has_parquet_magic_number p)
        | None => mret false
        end;
      match has_magic, path fetch_result with
      | true, Some p =>
          _render_deprecated_parquet p (message <$> errors fetch_result)
            output_path params
      | _, _ =>
          match errors fetch_result with
          | _ :: _ => mret (message <$> errors fetch_result)
          | [] => _render_file (path fetch_result) params output_path
          end
      end
  end.

(** [v.get(k, default)]: a method of dicts. *)
Definition py_get (v : pyval) (k : string) (dflt : pyval) : res pyval :=
  match v with
  | PDict d => Return (default dflt (d !! k))
  | _ => Raise AttributeError
  end.

Definition fetch_arrow (params secrets : gmap string pyval)
    (last_fetch_result : pyval) (input_table_parquet_path : option string)
    (output_path : string) : M FetchResult :=
  file_meta ← lift (dict_getitem params "file");
  if negb (truthy file_meta) then
    fetch_error output_path (trans "error.params.noFile" "Please choose a file")
  else
    sheet_id ← lift (py_getitem file_meta "id");
    if negb (truthy sheet_id) then raise (RuntimeError "Missing file.id")
    else
      sheet_mime_type ←
        lift (py_get file_meta "mimeType"
                (PStr "application/vnd.google-apps.spreadsheet"));
      let secret := default PNone (secrets !! "google_credentials") in
      if negb (truthy secret) then
        fetch_error output_path
          (trans "error.secrets.noCredentials" "Please connect to Google Drive.")
      else
        has_error ← lift (py_contains "error" secret);
        if (has_error : bool) then
          stored ← lift (py_getitem secret "error");
          i18n_message ← lift (I18nMessage_kwargs stored);
          fetch_error output_path i18n_message
        else
          has_secret ← lift (py_contains "secret" secret);
          if negb has_secret then raise AssertionError
          else
            token_type ←
              lift (inner ← py_getitem secret "secret";
                    py_getitem inner "token_type");
            access_token ←
              lift (inner ← py_getitem secret "secret";
                    py_getitem inner "access_token");
            do_download sheet_id sheet_mime_type
              {| client_id := PNone; token_type := token_type;
                 access_token := access_token |}
              output_path.

(** v0: [googlefileselect] was a JSON-encoded string.
    v1: [file] is an optional dict. *)
Definition _migrate_params_v0_to_v1 (params : gmap string pyval)
    : res (gmap string pyval) :=
  selected ← dict_getitem params "googlefileselect";
  file ←
    (if truthy selected then
       encoded ← dict_getitem params "googlefileselect";
       json_loads encoded
     else mret PNone);
  has_header ← dict_getitem params "has_header";
  version_select ← dict_getitem params "version_select";
  mret (<["file" := file]>
          (<["version_select" := version_select]>
             (<["has_header" := has_header]> ∅))).

Definition migrate_params (params : gmap string pyval)
    : res (gmap string pyval) :=
  if bool_decide (is_Some (params !! "googlefileselect"))
  then _migrate_params_v0_to_v1 params
  else Return params.

End googlesheets.

(** ** Vocabulary of the specification *)

Definition SPREADSHEET : string := "application/vnd.google-apps.spreadsheet".

(** The MIME type [fetch_arrow] passes on for the file reference [file]:
    the declared one, or the spreadsheet type when none is declared. *)
Definition declared_mime_type (file : gmap string pyval) : pyval :=
  default (PStr SPREADSHEET) (file !! "mimeType").

(** The params select a file: [file] is a dict with a non-empty [id]. *)
Definition file_selected (params file : gmap string pyval) (sheet_id : pyval)
    : Prop :=
  params !! "file" = Some (PDict file) ∧
  file !! "id" = Some sheet_id ∧
  truthy sheet_id = true.

(** The secrets hold a usable credential,
    [{"secret": {"token_type": ..., "access_token": ...}}] without [error],
    of which [fetch_arrow] builds [client]. *)
Definition credential_usable (secrets : gmap string pyval) (client : Client)
    : Prop :=
  ∃ credential inner : gmap string pyval,
    secrets !! "google_credentials" = Some (PDict credential) ∧
    credential !! "error" = None ∧
    credential !! "secret" = Some (PDict inner) ∧
    inner !! "token_type" = Some (token_type client) ∧
    inner !! "access_token" = Some (access_token client) ∧
    client_id client = PNone.

(** The secrets hold no credential: the key is missing or its value is
    empty. *)
Definition credential_absent (secrets : gmap string pyval) : Prop :=
  truthy (default PNone (secrets !! "google_credentials")) = false.

(** What the specification says of a failed download: the error message
    each failure of the transport maps to. *)
Inductive http_failure `{Collaborators}
    : DownloadOutcome → I18nMessage → Prop :=
  | failure_401 m :
      http_failure (NotSuccess 401 m)
        (trans "error.http.status401"
           "Invalid credentials. Please reconnect to Google Drive.")
  | failure_403 m :
      http_failure (NotSuccess 403 m)
        (trans "error.http.status403"
           "You chose a file your logged-in user cannot access. Please reconnect to Google Drive or choose a different file.")
  | failure_404 m :
      http_failure (NotSuccess 404 m)
        (trans "error.http.status404"
           "File not found. Please choose a different file.")
  | failure_other_status code m :
      code ≠ 401%Z → code ≠ 403%Z → code ≠ 404%Z →
      http_failure (NotSuccess code m) m
  | failure_transport m :
      http_failure (HttpError m) m.

(** The result of a fetch that failed with [message]. *)
Definition failed_fetch (output_path : string) (message : I18nMessage)
    : FetchResult :=
  {| path := Some output_path;
     errors := [ {| message := message; quick_fixes := [] |} ] |}.

(** The world after [output_path] was truncated to zero bytes. *)
Definition truncated (output_path : string) (w : World) : World :=
  {| files := <[output_path := []]> (files w); requests := requests w |}.

(** Two file references have the same fields and agree on all of them but
    [url] and [name]. *)
Definition same_but_url_and_name (file1 file2 : gmap string pyval) : Prop :=
  dom file1 = dom file2 ∧
  ∀ k, k ≠ "url" → k ≠ "name" → file1 !! k = file2 !! k.

(** The fetched file does not carry the magic number of the deprecated
    parquet format (or there is no fetched file). *)
Definition no_legacy_signature `{Collaborators} (fetch_result : FetchResult)
    (w : World) : Prop :=
  match path fetch_result with
  | Some p => file_has_parquet_magic_number p (files w) = Return false
  | None => True
  end.

(** The params of the current schema built by the migration. *)
Definition params_v1 (has_header version_select file : pyval)
    : gmap string pyval :=
  <["file" := file]>
    (<["version_select" := version_select]>
       (<["has_header" := has_header]> ∅)).

(** The file at [p] is an empty table: zero bytes long. *)
Definition empty_table (p : string) (w : World) : Prop :=
  files w !! p = Some [].

(** ** Test doubles of the libraries *)

#[global] Instance byte_eq_decision : EqDecision byte := Byte.byte_eq_dec.

Definition PAR1 : list byte := [x50; x41; x52; x31].

Definition stub_json_loads (v : pyval) : res pyval :=
  match v with
  | PStr s =>
      if String.eqb s "null" then Return PNone
      else if String.eqb s "{}" then Return (PDict ∅)
      else if String.eqb s "[]" then Return (PList [])
      else if String.eqb s "true" then Return (PBool true)
      else if String.eqb s "false" then Return (PBool false)
      else Raise (LibraryError "JSONDecodeError")
  | _ => Raise TypeError
  end.

(** A bearer token goes in the [Authorization] header; the url is kept. *)
Definition stub_add_token (c : Client) (url : string)
    (headers : gmap string string) : res (string * gmap string string) :=
  match token_type c, access_token c with
  | PStr _, PStr token =>
      Return (url, <["Authorization" := "Bearer " ++ token]> headers)
  | _, _ => Raise (LibraryError "ValueError")
  end.

(** [cjwmodule.testing.i18n.i18n_message(id)]: the message the tests expect
    of [trans]. *)
Definition i18n_message (msg_id : string) : I18nMessage :=
  {| id := PStr msg_id; arguments := PDict ∅; source := PStr "module" |}.

(** Libraries whose download ends as [outcome] after writing one byte, whose
    parquet files start with [PAR1] and are converted by copying, whose
    parser copies the body, and whose messages are those of the module's
    catalog, without arguments. *)
Definition stub (outcome : DownloadOutcome) : Collaborators := {|
  py_format := λ _, "?";
  trans := λ msg_id default_text, i18n_message msg_id;
  I18nMessage_defaults := <["source" := PNone]> (<["arguments" := PDict ∅]> ∅);
  json_loads := stub_json_loads;
  add_token := stub_add_token;
  httpfile_download := λ url output_path headers fs,
    (outcome, <[output_path := [x41]]> fs);
  file_has_parquet_magic_number := λ p fs,
    match fs !! p with
    | Some content => Return (bool_decide (take 4 content = PAR1))
    | None => Raise (FileNotFoundError p)
    end;
  convert_parquet_file_to_arrow_file := λ input output fs,
    match fs !! input with
    | Some content => (Return tt, <[output := content]> fs)
    | None => (Raise (FileNotFoundError input), fs)
    end;
  httpfile_read := λ p fs,
    match p with
    | Some p =>
        match fs !! p with
        | Some content => Return ([("Content-Type", "text/csv")], content)
        | None => Raise (FileNotFoundError p)
        end
    | None => Raise TypeError
    end;
  extract_first_header := λ headers name,
    snd <$> find (λ h, String.eqb (fst h) name) headers;
  MimeType := ["text/csv"; "text/tab-separated-values"; "text/plain";
               "application/json"; "application/vnd.ms-excel"];
  parse_file := λ body mime_type has_header output fs,
    (Return [], <[output := body]> fs);
|}.

(** The inputs of the unit tests. *)
Definition DEFAULT_FILE : gmap string pyval :=
  <["mimeType" := PStr SPREADSHEET]>
    (<["url" := PStr "http://example.org/police-data"]>
       (<["name" := PStr "Police Data"]>
          (<["id" := PStr "aushwyhtbndh7365YHALsdfsdf987IBHJB98uc9uisdj"]> ∅))).

Definition DEFAULT_SECRET : gmap string pyval :=
  <["secret" := PDict (<["access_token" := PStr "an-access-token"]>
                         (<["token_type" := PStr "Bearer"]> ∅))]>
    (<["name" := PStr "x"]> ∅).

Definition DEFAULT_CLIENT : Client :=
  {| client_id := PNone; token_type := PStr "Bearer";
     access_token := PStr "an-access-token" |}.

Definition P (file : pyval) (has_header : bool) : gmap string pyval :=
  <["has_header" := PBool has_header]> (<["file" := file]> ∅).

Definition secrets (secret : gmap string pyval) : gmap string pyval :=
  <["google_credentials" := PDict secret]> ∅.

(** A stored refresh failure, as the host passes it. *)
Definition STORED_ERROR : gmap string pyval :=
  <["id" := PStr "py.fetcher.secrets._refresh_oauth2_token.error.general"]>
    (<["arguments" := PDict (<["status_code" := PInt 400]> ∅)]>
       (<["source" := PNone]> ∅)).

Definition ERROR_SECRET : gmap string pyval :=
  <["error" := PDict STORED_ERROR]> (<["name" := PStr "x"]> ∅).

Definition DEFAULT_ID : pyval :=
  PStr "aushwyhtbndh7365YHALsdfsdf987IBHJB98uc9uisdj".

Definition EXPORT_URL : string :=
  "https://www.googleapis.com/drive/v3/files/aushwyhtbndh7365YHALsdfsdf987IBHJB98uc9uisdj/export?mimeType=text%2Fcsv".

Definition BEARER_HEADERS : gmap string string :=
  <["Authorization" := "Bearer an-access-token"]> ∅.

(** A message of the transport's own catalog. *)
Definition TIMEOUT_MESSAGE : I18nMessage :=
  {| id := PStr "http.errors.HttpErrorTimeout"; arguments := PDict ∅;
     source := PStr "cjwmodule" |}.

(** The message held by [STORED_ERROR]. *)
Definition STORED_MESSAGE : I18nMessage :=
  {| id := PStr "py.fetcher.secrets._refresh_oauth2_token.error.general";
     arguments := PDict (<["status_code" := PInt 400]> ∅);
     source := PNone |}.

(** A file reference whose [id] is the empty string. *)
Definition FILE_WITHOUT_ID : gmap string pyval :=
  <["id" := PStr EmptyString]> DEFAULT_FILE.

(** The same file as [DEFAULT_FILE], under another name and url. *)
Definition RENAMED_FILE : gmap string pyval :=
  <["url" := PStr "http://example.org/elsewhere"]>
    (<["name" := PStr "Renamed"]> DEFAULT_FILE).

(** The same file as [DEFAULT_FILE], declared as text/csv. *)
Definition CSV_FILE : gmap string pyval :=
  <["mimeType" := PStr "text/csv"]> DEFAULT_FILE.

Definition MEDIA_URL : string :=
  "https://www.googleapis.com/drive/v3/files/aushwyhtbndh7365YHALsdfsdf987IBHJB98uc9uisdj?alt=media".

(** A fetch result that stores one error and an empty file. *)
Definition FAILED_RESULT : FetchResult :=
  {| path := Some "fetched";
     errors := [ {| message := TIMEOUT_MESSAGE; quick_fixes := [] |} ] |}.

(** A fetch result of the deprecated format that stores one warning. *)
Definition LEGACY_RESULT : FetchResult :=
  {| path := Some "legacy";
     errors := [ {| message := TIMEOUT_MESSAGE; quick_fixes := [] |} ] |}.

Definition LEGACY_BYTES : list byte := (PAR1 ++ [x01; x02] ++ PAR1)%list.

(** Params of the legacy schema. *)
Definition V0_PARAMS (encoded : string) : gmap string pyval :=
  <["googlefileselect" := PStr encoded]>
    (<["version_select" := PStr EmptyString]>
       (<["has_header" := PBool false]> ∅)).

(** A disk with an empty output file [out], and one where it holds stale
    bytes. *)
Definition fresh_world : World :=
  {| files := <["out" := []]> ∅; requests := [] |}.

Definition stale_world : World :=
  {| files := <["out" := [x73; x74; x61; x6c; x65]]> ∅; requests := [] |}.

(** A disk that also holds an empty fetched file and a fetched file of the
    deprecated format. *)
Definition with_fetched (w : World) : World :=
  {| files := <["legacy" := LEGACY_BYTES]> (<["fetched" := []]> (files w));
     requests := requests w |}.

(** Libraries like [stub Downloaded] whose stored responses carry
    [headers] and whose conversion of parquet files raises unless
    [convertible]. *)
Definition stub_render (headers : list (string * string)) (convertible : bool)
    : Collaborators :=
  let base := stub Downloaded in
  {| py_format := @py_format base;
     trans := @trans base;
     I18nMessage_defaults := @I18nMessage_defaults base;
     json_loads := @json_loads base;
     add_token := @add_token base;
     httpfile_download := @httpfile_download base;
     file_has_parquet_magic_number := @file_has_parquet_magic_number base;
     convert_parquet_file_to_arrow_file := λ input output fs,
       if convertible
       then @convert_parquet_file_to_arrow_file base input output fs
       else (Raise (LibraryError "ArrowInvalid"), fs);
     httpfile_read := λ p fs,
       match p with
       | Some p =>
           match fs !! p with
           | Some content => Return (headers, content)
           | None => Raise (FileNotFoundError p)
           end
       | None => Raise TypeError
       end;
     extract_first_header := @extract_first_header base;
     MimeType := @MimeType base;
     parse_file := @parse_file base |}.

(** A credential whose token has no type. *)
Definition UNTYPED_SECRET : gmap string pyval :=
  <["secret" := PDict (<["access_token" := PStr "an-access-token"]>
                         (<["token_type" := PNone]> ∅))]>
    (<["name" := PStr "x"]> ∅).

Definition UNTYPED_CLIENT : Client :=
  {| client_id := PNone; token_type := PNone;
     access_token := PStr "an-access-token" |}.

(** A credential with a name and nothing else, and credentials whose
    [secret] lacks both fields, or [access_token]. *)
Definition NAME_ONLY_SECRET : gmap string pyval := <["name" := PStr "x"]> ∅.

Definition EMPTY_TOKEN_SECRET : gmap string pyval :=
  <["secret" := PDict ∅]> NAME_ONLY_SECRET.

Definition TYPE_ONLY_SECRET : gmap string pyval :=
  <["secret" := PDict (<["token_type" := PStr "Bearer"]> ∅)]> NAME_ONLY_SECRET.

(** Credentials whose stored [error] is not a localized message: a plain
    string, and a dict with a field [I18nMessage] does not have. *)
Definition TEXT_ERROR_SECRET : gmap string pyval :=
  <["error" := PStr "invalid_grant"]> NAME_ONLY_SECRET.

Definition FOREIGN_ERROR : gmap string pyval :=
  <["description" := PStr "Token has been expired or revoked."]> STORED_ERROR.

Definition FOREIGN_ERROR_SECRET : gmap string pyval :=
  <["error" := PDict FOREIGN_ERROR]> NAME_ONLY_SECRET.

(** A file reference without [id]. *)
Definition FILE_WITHOUT_ID_KEY : gmap string pyval :=
  <["name" := PStr "Police Data"]> ∅.

(** A fetch result that stores a response and no error. *)
Definition STORED_RESULT : FetchResult :=
  {| path := Some "stored"; errors := [] |}.

Definition CSV_BYTES : list byte := [x41; x2c; x42; x0a; x61; x2c; x62].

(** A disk that also holds a stored response. *)
Definition with_stored (w : World) : World :=
  {| files := <["stored" := CSV_BYTES]> (files w); requests := requests w |}.

(** A disk without any file. *)
Definition empty_world : World := {| files := ∅; requests := [] |}.

(** Legacy params with a key the current schema does not have. *)
Definition V0_PARAMS_WITH_EXTRA (encoded : string) : gmap string pyval :=
  <["obsolete" := PInt 1]> (V0_PARAMS encoded).

(** * Properties *)

(** ** The unit tests of the repository, on the test doubles *)

Example test_fetch_nothing :
  fetch_arrow (H := stub Downloaded) (P PNone true) ∅ PNone None "out"
    stale_world
  = (Return (failed_fetch "out" (i18n_message "error.params.noFile")),
     fresh_world).
Proof. vm_compute. reflexivity. Qed.

Example test_missing_secret_error :
  fetch_arrow (H := stub Downloaded) (P (PDict DEFAULT_FILE) true) ∅ PNone
    None "out" stale_world
  = (Return (failed_fetch "out" (i18n_message "error.secrets.noCredentials")),
     fresh_world).
Proof. vm_compute. reflexivity. Qed.

Example test_fetch_native_sheet :
  req_url <$> requests
    (fetch_arrow (H := stub Downloaded) (P (PDict DEFAULT_FILE) true)
       (secrets DEFAULT_SECRET) PNone None "out" fresh_world).2
  = [EXPORT_URL].
Proof. vm_compute. reflexivity. Qed.

Example test_fetch_csv_file :
  req_url <$> requests
    (fetch_arrow (H := stub Downloaded)
       (P (PDict CSV_FILE) true) (secrets DEFAULT_SECRET) PNone None "out"
       fresh_world).2
  = [MEDIA_URL].
Proof. vm_compute. reflexivity. Qed.

Example test_http_not_200_ok_generic :
  let theirs :=
    {| id := PStr "http.errors.HttpErrorNotSuccess";
       arguments := PDict (<["status_code" := PInt 429]> ∅);
       source := PStr "cjwmodule" |} in
  (fetch_arrow (H := stub (NotSuccess 429 theirs)) (P (PDict DEFAULT_FILE) true)
     (secrets DEFAULT_SECRET) PNone None "out" fresh_world).1
  = Return (failed_fetch "out" theirs).
Proof. vm_compute. reflexivity. Qed.

Example test_render_deprecated_parquet_has_header_false :
  render (H := stub Downloaded) PNone (P (PDict DEFAULT_FILE) false) "out"
    (Some {| path := Some "legacy"; errors := [] |})
    (with_fetched fresh_world)
  = (Return [i18n_message "error.parquet.cannotRemoveHeader"],
     {| files := <["out" := LEGACY_BYTES]> (files (with_fetched fresh_world));
        requests := [] |}).
Proof. vm_compute. reflexivity. Qed.

Example test_render_has_header_true :
  render (H := stub Downloaded) PNone (P (PDict DEFAULT_FILE) true) "out"
    (Some {| path := Some "fetched"; errors := [] |})
    (with_fetched fresh_world)
  = (Return [], with_fetched fresh_world).
Proof. vm_compute. reflexivity. Qed.

Example test_secret_error :
  fetch_arrow (H := stub Downloaded) (P (PDict DEFAULT_FILE) true)
    (secrets ERROR_SECRET) PNone None "out" stale_world
  = (Return (failed_fetch "out" STORED_MESSAGE), fresh_world).
Proof. vm_compute. reflexivity. Qed.

Example test_v0_no_file :
  migrate_params (H := stub Downloaded)
    (<["googlefileselect" := PStr EmptyString]>
       (<["version_select" := PStr EmptyString]>
          (<["has_header" := PBool false]> ∅)))
  = Return (<["file" := PNone]>
              (<["version_select" := PStr EmptyString]>
                 (<["has_header" := PBool false]> ∅))).
Proof. vm_compute. reflexivity. Qed.

Example test_v1 :
  let params :=
    <["file" := PDict DEFAULT_FILE]>
      (<["version_select" := PStr EmptyString]>
         (<["has_header" := PBool false]> ∅)) in
  migrate_params (H := stub Downloaded) params = Return params.
Proof. vm_compute. reflexivity. Qed.

(** ** Shared lemmas *)

Lemma bind_lift_Return {A B : Type} (a : A) (k : A → M B) (w : World) :
  (lift (Return a) ≫= k) w = k a w.
Proof. reflexivity. Qed.

Lemma bind_lift_Raise {A B : Type} (e : exn) (k : A → M B) (w : World) :
  (lift (Raise e) ≫= k) w = (Raise e, w).
Proof. reflexivity. Qed.

Lemma res_bind_Return {A B : Type} (a : A) (k : A → res B) :
  (Return a ≫= k) = k a.
Proof. reflexivity. Qed.

(** Runs the monadic plumbing once the value bound is known. *)
Ltac mstep :=
  repeat (progress (rewrite ?bind_lift_Return, ?bind_lift_Raise,
                      ?res_bind_Return;
                    cbn [negb default from_option Datatypes.id py_getitem])).

Tactic Notation "mstep" "in" hyp(H) :=
  repeat (progress (rewrite ?bind_lift_Return, ?bind_lift_Raise,
                      ?res_bind_Return in H;
                    cbn [negb default from_option Datatypes.id py_getitem]
                      in H)).

Section properties.
Context `{Collaborators}.

Lemma dict_getitem_Some (d : gmap string pyval) (k : string) (v : pyval) :
  d !! k = Some v → dict_getitem d k = Return v.
Proof. intros Hk. unfold dict_getitem. rewrite Hk. reflexivity. Qed.

Lemma dict_getitem_None (d : gmap string pyval) (k : string) :
  d !! k = None → dict_getitem d k = Raise (KeyError k).
Proof. intros Hk. unfold dict_getitem. rewrite Hk. reflexivity. Qed.

Lemma py_contains_dict_Some (d : gmap string pyval) (k : string) (v : pyval) :
  d !! k = Some v → py_contains k (PDict d) = Return true.
Proof.
  intros Hk. unfold py_contains. rewrite Hk.
  rewrite bool_decide_eq_true_2 by eauto. reflexivity.
Qed.

Lemma py_contains_dict_None (d : gmap string pyval) (k : string) :
  d !! k = None → py_contains k (PDict d) = Return false.
Proof.
  intros Hk. unfold py_contains. rewrite Hk.
  rewrite bool_decide_eq_false_2 by (intros [? ?]; discriminate).
  reflexivity.
Qed.

(** On an existing file [fetch_error] truncates it and returns the one
    error. *)
Lemma fetch_error_truncates (output_path : string) (m : I18nMessage)
    (w : World) :
  is_Some (files w !! output_path) →
  fetch_error output_path m w
  = (Return (failed_fetch output_path m), truncated output_path w).
Proof.
  intros [content Hcontent].
  unfold fetch_error, os_truncate, on_files, mbind, M_bind, mret, M_ret.
  rewrite Hcontent. reflexivity.
Qed.

(** A missing output file makes [fetch_error] raise. *)
Lemma fetch_error_missing (output_path : string) (m : I18nMessage)
    (w : World) :
  files w !! output_path = None →
  fetch_error output_path m w = (Raise (FileNotFoundError output_path), w).
Proof.
  intros Hnone.
  unfold fetch_error, os_truncate, on_files, mbind, M_bind.
  rewrite Hnone. destruct w; reflexivity.
Qed.

Lemma file_selected_truthy (params file : gmap string pyval) (sheet_id : pyval) :
  file_selected params file sheet_id → truthy (PDict file) = true.
Proof.
  intros (_ & Hid & _). simpl.
  rewrite bool_decide_eq_false_2; [reflexivity |].
  intros ->. rewrite lookup_empty in Hid. discriminate.
Qed.

(** With a file selected and a usable credential, [fetch_arrow] is the
    download of that file with that credential. *)
Lemma fetch_arrow_reaches_download (params secrets file : gmap string pyval)
    (sheet_id last : pyval) (client : Client) (input_table : option string)
    (output_path : string) (w : World) :
  file_selected params file sheet_id →
  credential_usable secrets client →
  fetch_arrow params secrets last input_table output_path w
  = do_download sheet_id (declared_mime_type file) client output_path w.
Proof.
  intros Hfile (credential & inner & Hcred & Herr & Hsec & Htt & Hat & Hcid).
  pose proof (file_selected_truthy _ _ _ Hfile) as Htruthy.
  destruct Hfile as (Hparams & Hid & Hsid).
  assert (Hne : truthy (PDict credential) = true).
  { simpl. rewrite bool_decide_eq_false_2; [reflexivity |].
    intros ->. rewrite lookup_empty in Hsec. discriminate. }
  destruct client as [cid tt at_]. simpl in Htt, Hat, Hcid. subst cid.
  unfold fetch_arrow, py_get.
  rewrite (dict_getitem_Some _ _ _ Hparams). mstep.
  rewrite Htruthy. mstep. rewrite (dict_getitem_Some _ _ _ Hid). mstep.
  rewrite Hsid. mstep. rewrite Hcred. mstep. rewrite Hne. mstep.
  rewrite (py_contains_dict_None _ _ Herr). mstep. cbv iota.
  rewrite (py_contains_dict_Some _ _ _ Hsec). mstep. cbv iota.
  rewrite (dict_getitem_Some _ _ _ Hsec). mstep.
  rewrite (dict_getitem_Some _ _ _ Htt), (dict_getitem_Some _ _ _ Hat). mstep.
  reflexivity.
Qed.

(** What [do_download] does once the token is added and the transport has
    answered: the request is logged, the files are the transport's, and the
    outcome is classified. *)
Lemma do_download_run (sheet_id sheet_mime_type : pyval) (client : Client)
    (output_path : string) (w : World) (url : string)
    (headers : gmap string string) (outcome : DownloadOutcome)
    (fs' : gmap string (list byte)) :
  add_token client (do_download_target sheet_id sheet_mime_type).1 ∅
  = Return (url, headers) →
  httpfile_download url output_path headers (files w) = (outcome, fs') →
  do_download sheet_id sheet_mime_type client output_path w
  = match outcome with
    | NotSuccess status_code i18n_message =>
        fetch_error output_path
          (if (status_code =? 401)%Z then
             trans "error.http.status401"
               "Invalid credentials. Please reconnect to Google Drive."
           else if (status_code =? 403)%Z then
             trans "error.http.status403"
               "You chose a file your logged-in user cannot access. Please reconnect to Google Drive or choose a different file."
           else if (status_code =? 404)%Z then
             trans "error.http.status404"
               "File not found. Please choose a different file."
           else i18n_message)
    | HttpError i18n_message => fetch_error output_path i18n_message
    | Crashed e => raise e
    | Downloaded => mret {| path := Some output_path; errors := [] |}
    end
      {| files := fs';
         requests := requests w ++ [mkRequest url headers output_path] |}.
Proof.
  intros Htoken Hdownload. unfold do_download.
  destruct (do_download_target sheet_id sheet_mime_type) as [target mime].
  simpl in Htoken. rewrite Htoken. mstep.
  unfold log_request, on_files, mbind, M_bind. simpl files. simpl requests.
  rewrite Hdownload.
  destruct outcome as [| code theirs | theirs | e]; try reflexivity.
  destruct (code =? 401)%Z; [reflexivity |].
  destruct (code =? 403)%Z; [reflexivity |].
  destruct (code =? 404)%Z; reflexivity.
Qed.

Lemma fetch_error_requests (output_path : string) (m : I18nMessage)
    (w : World) :
  requests (fetch_error output_path m w).2 = requests w.
Proof.
  unfold fetch_error, os_truncate, on_files, mbind, M_bind.
  destruct (files w !! output_path); reflexivity.
Qed.

(** [fetch_arrow] issues a request only with a file selected, a usable
    credential and a token added to the targeted url. *)
Lemma fetch_arrow_request_inv (params secrets : gmap string pyval)
    (last : pyval) (input_table : option string) (output_path : string)
    (w : World) :
  requests (fetch_arrow params secrets last input_table output_path w).2
  ≠ requests w →
  ∃ (file : gmap string pyval) (sheet_id : pyval) (client : Client)
    (url : string) (headers : gmap string string),
    file_selected params file sheet_id ∧
    credential_usable secrets client ∧
    add_token client
      (do_download_target sheet_id (declared_mime_type file)).1 ∅
    = Return (url, headers).
Proof.
  intros Hgrew.
  assert (Hexit : ∀ X : Prop,
    requests (fetch_arrow params secrets last input_table output_path w).2
    = requests w → X) by (intros X Hsame; contradiction).
  revert Hexit. clear Hgrew. unfold fetch_arrow, py_get.
  destruct (params !! "file") as [file_meta |] eqn:Hparams;
    [rewrite (dict_getitem_Some _ _ _ Hparams)
    | rewrite (dict_getitem_None _ _ Hparams)];
    mstep; intros Hexit; [| apply Hexit; reflexivity].
  destruct (truthy file_meta) eqn:Htruthy; mstep in Hexit;
    [| apply Hexit, fetch_error_requests].
  destruct file_meta as [| | | | | file];
    try (apply Hexit; reflexivity). 
  revert Hexit. mstep.
  destruct (file !! "id") as [sheet_id |] eqn:Hid;
    [rewrite (dict_getitem_Some _ _ _ Hid)
    | rewrite (dict_getitem_None _ _ Hid)];
    mstep; intros Hexit; [| apply Hexit; reflexivity].
  destruct (truthy sheet_id) eqn:Hsid; mstep in Hexit;
    [| apply Hexit; reflexivity].
  destruct (secrets !! "google_credentials") as [secret |] eqn:Hcred;
    mstep in Hexit; [| apply Hexit, fetch_error_requests].
  destruct (truthy secret) eqn:Hsecret; mstep in Hexit;
    [| apply Hexit, fetch_error_requests].
  destruct secret as [| b | z | s | l | credential];
    try discriminate Hsecret;
    try (apply Hexit; reflexivity).
  - (* a string *)
    unfold py_contains in Hexit.
    destruct (String.index 0 "error" s); mstep in Hexit;
      [apply Hexit; reflexivity |].
    destruct (String.index 0 "secret" s); mstep in Hexit;
      apply Hexit; reflexivity.
  - (* a list *)
    unfold py_contains in Hexit.
    destruct (existsb (λ x, py_eq_str x "error") l); mstep in Hexit;
      [apply Hexit; reflexivity |].
    destruct (existsb (λ x, py_eq_str x "secret") l); mstep in Hexit;
      apply Hexit; reflexivity.
  - (* a dict *)
    destruct (credential !! "error") as [stored |] eqn:Herr.
    { rewrite (py_contains_dict_Some _ _ _ Herr) in Hexit. mstep in Hexit.
      rewrite (dict_getitem_Some _ _ _ Herr) in Hexit. mstep in Hexit.
      destruct (I18nMessage_kwargs stored); mstep in Hexit;
        [apply Hexit, fetch_error_requests | apply Hexit; reflexivity]. }
    rewrite (py_contains_dict_None _ _ Herr) in Hexit. mstep in Hexit.
    destruct (credential !! "secret") as [inner |] eqn:Hsec.
    2: { rewrite (py_contains_dict_None _ _ Hsec) in Hexit. mstep in Hexit.
         apply Hexit; reflexivity. }
    rewrite (py_contains_dict_Some _ _ _ Hsec) in Hexit. mstep in Hexit.
    rewrite (dict_getitem_Some _ _ _ Hsec) in Hexit. mstep in Hexit.
    destruct inner as [| | | | | inner]; mstep in Hexit;
      try (apply Hexit; reflexivity).
    destruct (inner !! "token_type") as [tt |] eqn:Htt;
      [rewrite (dict_getitem_Some _ _ _ Htt) in Hexit
      | rewrite (dict_getitem_None _ _ Htt) in Hexit];
      mstep in Hexit; [| apply Hexit; reflexivity].
    destruct (inner !! "access_token") as [at_ |] eqn:Hat;
      [rewrite (dict_getitem_Some _ _ _ Hat) in Hexit
      | rewrite (dict_getitem_None _ _ Hat) in Hexit];
      mstep in Hexit; [| apply Hexit; reflexivity].
    change (default (PStr "application/vnd.google-apps.spreadsheet")
              (file !! "mimeType"))
      with (declared_mime_type file) in Hexit.
    set (client := {| client_id := PNone; token_type := tt;
                      access_token := at_ |}) in *.
    destruct (add_token client
                (do_download_target sheet_id (declared_mime_type file)).1 ∅)
      as [[url headers] | e] eqn:Htoken.
    + exists file, sheet_id, client, url, headers.
      split; [repeat split; assumption |].
      split; [| exact Htoken].
      exists credential, inner. repeat split; assumption.
    + apply Hexit. unfold do_download.
      destruct (do_download_target sheet_id (declared_mime_type file))
        as [target mime].
      simpl in Htoken. cbv beta iota. rewrite Htoken. reflexivity.
Qed.

(** The request [do_download] logs, whatever the transport answers. *)
Lemma do_download_requests (sheet_id sheet_mime_type : pyval)
    (client : Client) (output_path : string) (w : World) (url : string)
    (headers : gmap string string) :
  add_token client (do_download_target sheet_id sheet_mime_type).1 ∅
  = Return (url, headers) →
  requests (do_download sheet_id sheet_mime_type client output_path w).2
  = (requests w ++ [mkRequest url headers output_path])%list.
Proof.
  intros Htoken.
  destruct (httpfile_download url output_path headers (files w))
    as [outcome fs'] eqn:Hdownload.
  rewrite (do_download_run _ _ _ _ _ _ _ _ _ Htoken Hdownload).
  destruct outcome; try reflexivity; apply fetch_error_requests.
Qed.

(** C1. Whenever a fetch reaches the HTTP request and the transport fails,
    the result carries exactly one error and the output file is truncated to
    zero bytes: the error is [error.http.status401], [error.http.status403]
    or [error.http.status404] for the statuses 401, 403 and 404, and the
    transport's own message for any other status and for any other failure
    of the transport. *)
Theorem http_failure_yields_one_error (params secrets : gmap string pyval)
    (last : pyval) (input_table : option string) (output_path : string)
    (w : World) (request : Request) (outcome : DownloadOutcome)
    (fs' : gmap string (list byte)) (m : I18nMessage) :
  requests (fetch_arrow params secrets last input_table output_path w).2
  = (requests w ++ [request])%list →
  httpfile_download (req_url request) output_path (req_headers request)
    (files w)
  = (outcome, fs') →
  is_Some (fs' !! output_path) →
  http_failure outcome m →
  fetch_arrow params secrets last input_table output_path w
  = (Return (failed_fetch output_path m),
     {| files := <[output_path := []]> fs';
        requests := requests w ++ [request] |}).
Proof.
  intros Hrequest Hdownload Hexists Hfailure.
  destruct (fetch_arrow_request_inv params secrets last input_table
              output_path w)
    as (file & sheet_id & client & url & headers & Hfile & Hcred & Htoken).
  { rewrite Hrequest. intros Hsame.
    apply (f_equal length) in Hsame. rewrite length_app in Hsame.
    simpl in Hsame. lia. }
  rewrite (fetch_arrow_reaches_download _ _ _ _ _ _ _ _ _ Hfile Hcred)
    in Hrequest |- *.
  rewrite (do_download_requests _ _ _ _ _ _ _ Htoken) in Hrequest.
  apply app_inj_tail in Hrequest as [_ <-]. simpl in Hdownload.
  rewrite (do_download_run _ _ _ _ _ _ _ _ _ Htoken Hdownload).
  destruct Hfailure as [theirs | theirs | theirs | code theirs H401 H403 H404
                       | theirs].
  - apply fetch_error_truncates. exact Hexists.
  - apply fetch_error_truncates. exact Hexists.
  - apply fetch_error_truncates. exact Hexists.
  - apply Z.eqb_neq in H401, H403, H404. rewrite H401, H403, H404.
    apply fetch_error_truncates. exact Hexists.
  - apply fetch_error_truncates. exact Hexists.
Qed.

(** C2. When the file reference declares the spreadsheet MIME type, or none
    at all, [do_download] targets the export url of the file id and the
    MIME type becomes text/csv; for any other declared MIME type it targets
    the alt=media url and keeps the declared type. A fetch that selects the
    file with a usable credential requests what the OAuth client makes of
    that url. *)
Theorem request_url_follows_mime_type
    (params secrets file : gmap string pyval) (sheet_id last : pyval)
    (client : Client) (input_table : option string) (output_path : string)
    (w : World) :
  file_selected params file sheet_id →
  credential_usable secrets client →
  let target := do_download_target sheet_id (declared_mime_type file) in
  (file !! "mimeType" = None ∨ file !! "mimeType" = Some (PStr SPREADSHEET) →
   target = (GDRIVE_API_URL ++ "/files/" ++ py_fstring sheet_id
               ++ "/export?mimeType=text%2Fcsv",
             PStr "text/csv")) ∧
  (∀ declared, file !! "mimeType" = Some declared →
   declared ≠ PStr SPREADSHEET →
   target = (GDRIVE_API_URL ++ "/files/" ++ py_fstring sheet_id
               ++ "?alt=media",
             declared)) ∧
  (∀ url headers, add_token client target.1 ∅ = Return (url, headers) →
   requests (fetch_arrow params secrets last input_table output_path w).2
   = (requests w ++ [mkRequest url headers output_path])%list).
Proof.
  intros Hfile Hcred target. subst target. split; [| split].
  - intros Hmime. unfold do_download_target, declared_mime_type.
    destruct Hmime as [-> | ->]; reflexivity.
  - intros declared Hdeclared Hother.
    unfold do_download_target, declared_mime_type. rewrite Hdeclared.
    cbn [default from_option Datatypes.id].
    destruct (py_eq_str declared _) eqn:Heq; [| reflexivity].
    destruct declared; try discriminate Heq.
    simpl in Heq. apply String.eqb_eq in Heq. subst. contradiction.
  - intros url headers Htoken.
    rewrite (fetch_arrow_reaches_download _ _ _ _ _ _ _ _ _ Hfile Hcred).
    apply do_download_requests. exact Htoken.
Qed.

(** [render] on a fetched file of the deprecated format. *)
Lemma render_legacy (table : pyval) (params : gmap string pyval)
    (output_path : string) (fetch_result : FetchResult) (input_path : string)
    (w : World) :
  path fetch_result = Some input_path →
  file_has_parquet_magic_number input_path (files w) = Return true →
  render table params output_path (Some fetch_result) w
  = _render_deprecated_parquet input_path (message <$> errors fetch_result)
      output_path params w.
Proof.
  intros Hpath Hmagic. unfold render. rewrite Hpath.
  unfold reading, mbind, M_bind. rewrite Hmagic. reflexivity.
Qed.

(** [render] on a fetched file without the legacy signature. *)
Lemma render_current (table : pyval) (params : gmap string pyval)
    (output_path : string) (fetch_result : FetchResult) (w : World) :
  no_legacy_signature fetch_result w →
  render table params output_path (Some fetch_result) w
  = match errors fetch_result with
    | _ :: _ => (Return (message <$> errors fetch_result), w)
    | [] => _render_file (path fetch_result) params output_path w
    end.
Proof.
  unfold no_legacy_signature, render. intros Hmagic.
  destruct (path fetch_result) as [p |].
  - unfold reading, mbind, M_bind. rewrite Hmagic.
    destruct (errors fetch_result); reflexivity.
  - destruct (errors fetch_result); reflexivity.
Qed.

(** C3. For a fetch result whose file carries the legacy parquet signature,
    [render] converts the file into the output table and returns the stored
    messages first; when [has_header] is false exactly one
    [error.parquet.cannotRemoveHeader] warning follows them. The output is
    the same whatever [has_header] is. *)
Theorem render_deprecated_parquet (table : pyval)
    (params : gmap string pyval) (output_path : string)
    (fetch_result : FetchResult) (input_path : string) (has_header : pyval)
    (fs' : gmap string (list byte)) (w : World) :
  path fetch_result = Some input_path →
  file_has_parquet_magic_number input_path (files w) = Return true →
  convert_parquet_file_to_arrow_file input_path output_path (files w)
  = (Return tt, fs') →
  params !! "has_header" = Some has_header →
  render table params output_path (Some fetch_result) w
  = (Return ((message <$> errors fetch_result) ++
             (if truthy has_header then []
              else [trans "error.parquet.cannotRemoveHeader"
                      "Please re-download this file to disable header-row handling"]))%list,
     {| files := fs'; requests := requests w |}) ∧
  ∀ params' : gmap string pyval,
    params' !! "has_header" = Some (PBool true) →
    (render table params' output_path (Some fetch_result) w).2
    = (render table params output_path (Some fetch_result) w).2.
Proof.
  intros Hpath Hmagic Hconvert Hheader.
  assert (Hrun : ∀ (q : gmap string pyval) (h : pyval),
    q !! "has_header" = Some h →
    render table q output_path (Some fetch_result) w
    = (Return ((message <$> errors fetch_result) ++
               (if truthy h then []
                else [trans "error.parquet.cannotRemoveHeader"
                        "Please re-download this file to disable header-row handling"]))%list,
       {| files := fs'; requests := requests w |})).
  { intros q h Hq. rewrite (render_legacy _ _ _ _ _ _ Hpath Hmagic).
    unfold _render_deprecated_parquet, on_files, mbind, M_bind.
    rewrite Hconvert. unfold lift. rewrite (dict_getitem_Some _ _ _ Hq).
    destruct (truthy h); [| reflexivity].
    rewrite app_nil_r. reflexivity. }
  split.
  - apply Hrun. exact Hheader.
  - intros params' Hheader'.
    rewrite (Hrun _ _ Hheader'), (Hrun _ _ Hheader). reflexivity.
Qed.

(** C4, as the code has it. [render] without a fetch result returns no
    errors, and [render] of a fetch result with stored errors and without
    the legacy signature returns exactly the stored messages, in order. In
    both cases it writes nothing: the world after the call is the world
    before it, the output file holds the bytes it held, and so it is an empty
    table provided it was one before the call. *)
Theorem render_without_data (table : pyval) (params : gmap string pyval)
    (output_path : string) (w : World) :
  render table params output_path None w = (Return [], w) ∧
  (∀ fetch_result : FetchResult,
     errors fetch_result ≠ [] →
     no_legacy_signature fetch_result w →
     render table params output_path (Some fetch_result) w
     = (Return (message <$> errors fetch_result), w)) ∧
  (∀ fetch_result : option FetchResult,
     match fetch_result with
     | None => True
     | Some r => errors r ≠ [] ∧ no_legacy_signature r w
     end →
     files (render table params output_path fetch_result w).2 !! output_path
     = files w !! output_path ∧
     (empty_table output_path w →
      empty_table output_path
        (render table params output_path fetch_result w).2)).
Proof.
  assert (Hstored : ∀ fetch_result : FetchResult,
    errors fetch_result ≠ [] →
    no_legacy_signature fetch_result w →
    render table params output_path (Some fetch_result) w
    = (Return (message <$> errors fetch_result), w)).
  { intros fetch_result Herrors Hmagic.
    rewrite (render_current _ _ _ _ _ Hmagic).
    destruct (errors fetch_result) as [| e rest]; [contradiction |].
    reflexivity. }
  split; [reflexivity |]. split; [exact Hstored |].
  intros [r |] Hcase.
  - destruct Hcase as [Herrors Hmagic].
    rewrite (Hstored r Herrors Hmagic). split; [reflexivity |].
    intros Hempty. exact Hempty.
  - split; [reflexivity |]. intros Hempty. exact Hempty.
Qed.

(** C10. Without a fetch result, and with stored errors and no legacy
    signature, [render] writes nothing: the world after the call is the
    world before it, so the output file holds the bytes it held, and it is
    an empty table after the call exactly when it was one before. *)
Theorem render_without_data_writes_nothing (table : pyval)
    (params : gmap string pyval) (output_path : string) (w : World) :
  ((render table params output_path None w).2 = w ∧
   ∀ fetch_result : FetchResult,
     errors fetch_result ≠ [] →
     no_legacy_signature fetch_result w →
     (render table params output_path (Some fetch_result) w).2 = w) ∧
  ∀ fetch_result : option FetchResult,
    match fetch_result with
    | None => True
    | Some r => errors r ≠ [] ∧ no_legacy_signature r w
    end →
    files (render table params output_path fetch_result w).2 !! output_path
    = files w !! output_path ∧
    (empty_table output_path (render table params output_path fetch_result w).2
     ↔ empty_table output_path w).
Proof.
  assert (Hframe : ∀ fetch_result : FetchResult,
    errors fetch_result ≠ [] →
    no_legacy_signature fetch_result w →
    (render table params output_path (Some fetch_result) w).2 = w).
  { intros fetch_result Herrors Hmagic.
    rewrite (render_current _ _ _ _ _ Hmagic).
    destruct (errors fetch_result) as [| e rest]; [contradiction |].
    reflexivity. }
  split; [split; [reflexivity | exact Hframe] |].
  intros [r |] Hcase.
  - destruct Hcase as [Herrors Hmagic].
    rewrite (Hframe r Herrors Hmagic). split; reflexivity.
  - split; reflexivity.
Qed.

(** C5, as the code has it. The checks of [fetch_arrow] run in order and
    the first failure ends the call. When [file] is empty, the result is the
    one error [error.params.noFile] whatever the secrets are; when a file
    with a non-empty [id] is selected and there is no credential, it is the
    one error [error.secrets.noCredentials]. In both cases the output file
    is truncated to zero bytes and no request is made. *)
Theorem fetch_without_file_or_credential (params secrets : gmap string pyval)
    (last : pyval) (input_table : option string) (output_path : string)
    (w : World) :
  is_Some (files w !! output_path) →
  (∀ file_meta : pyval,
     params !! "file" = Some file_meta →
     truthy file_meta = false →
     fetch_arrow params secrets last input_table output_path w
     = (Return (failed_fetch output_path
                  (trans "error.params.noFile" "Please choose a file")),
        truncated output_path w)) ∧
  (∀ (file : gmap string pyval) (sheet_id : pyval),
     file_selected params file sheet_id →
     credential_absent secrets →
     fetch_arrow params secrets last input_table output_path w
     = (Return (failed_fetch output_path
                  (trans "error.secrets.noCredentials"
                     "Please connect to Google Drive.")),
        truncated output_path w)).
Proof.
  intros Hexists. split.
  - intros file_meta Hparams Hfalsy. unfold fetch_arrow.
    rewrite (dict_getitem_Some _ _ _ Hparams). mstep. rewrite Hfalsy. mstep.
    apply fetch_error_truncates. exact Hexists.
  - intros file sheet_id Hfile Habsent.
    pose proof (file_selected_truthy _ _ _ Hfile) as Htruthy.
    destruct Hfile as (Hparams & Hid & Hsid).
    unfold credential_absent in Habsent. unfold fetch_arrow, py_get.
    rewrite (dict_getitem_Some _ _ _ Hparams). mstep.
    rewrite Htruthy. mstep. rewrite (dict_getitem_Some _ _ _ Hid). mstep.
    rewrite Hsid. mstep. rewrite Habsent. mstep.
    apply fetch_error_truncates. exact Hexists.
Qed.

(** The keyword call of [I18nMessage] on a dict of exactly its three
    fields. *)
Lemma I18nMessage_kwargs_full (i a s : pyval) :
  I18nMessage_kwargs
    (PDict (<["id" := i]> (<["arguments" := a]> (<["source" := s]> ∅))))
  = Return {| id := i; arguments := a; source := s |}.
Proof.
  unfold I18nMessage_kwargs, I18nMessage_field.
  rewrite bool_decide_eq_true_2.
  - rewrite lookup_insert_eq, res_bind_Return. cbv beta.
    rewrite (lookup_insert_ne _ "id" "arguments") by discriminate.
    rewrite lookup_insert_eq, res_bind_Return. cbv beta.
    rewrite (lookup_insert_ne _ "id" "source") by discriminate.
    rewrite (lookup_insert_ne _ "arguments" "source") by discriminate.
    rewrite lookup_insert_eq. reflexivity.
  - rewrite !dom_insert_L, dom_empty_L. set_solver.
Qed.

(** C6, as the code has it. When a file with a non-empty [id] is selected
    and the stored credential holds an [error] (a localized message of
    [id], [arguments] and [source]), the result is exactly one error whose
    message is that stored message, field for field; the output file is
    truncated to zero bytes and no request is made. *)
Theorem stored_error_passes_through
    (params secrets file credential : gmap string pyval)
    (sheet_id i a s last : pyval) (input_table : option string)
    (output_path : string) (w : World) :
  file_selected params file sheet_id →
  secrets !! "google_credentials" = Some (PDict credential) →
  credential !! "error"
  = Some (PDict (<["id" := i]> (<["arguments" := a]> (<["source" := s]> ∅)))) →
  is_Some (files w !! output_path) →
  fetch_arrow params secrets last input_table output_path w
  = (Return (failed_fetch output_path {| id := i; arguments := a; source := s |}),
     truncated output_path w).
Proof.
  intros Hfile Hcred Hstored Hexists.
  pose proof (file_selected_truthy _ _ _ Hfile) as Htruthy.
  destruct Hfile as (Hparams & Hid & Hsid).
  assert (Hne : truthy (PDict credential) = true).
  { simpl. rewrite bool_decide_eq_false_2; [reflexivity |].
    intros ->. rewrite lookup_empty in Hstored. discriminate. }
  unfold fetch_arrow, py_get.
  rewrite (dict_getitem_Some _ _ _ Hparams). mstep.
  rewrite Htruthy. mstep. rewrite (dict_getitem_Some _ _ _ Hid). mstep.
  rewrite Hsid. mstep. rewrite Hcred. mstep. rewrite Hne. mstep.
  rewrite (py_contains_dict_Some _ _ _ Hstored). mstep. cbv iota.
  rewrite (dict_getitem_Some _ _ _ Hstored). mstep.
  rewrite I18nMessage_kwargs_full. mstep.
  apply fetch_error_truncates. exact Hexists.
Qed.

Lemma same_but_url_and_name_truthy (file1 file2 : gmap string pyval) :
  same_but_url_and_name file1 file2 →
  truthy (PDict file1) = truthy (PDict file2).
Proof.
  intros [Hdom _]. simpl. f_equal.
  apply bool_decide_ext.
  rewrite <- !(dom_empty_iff_L (D := gset string)), Hdom. reflexivity.
Qed.

(** C9. [fetch_arrow] does not read the [url] (nor the [name]) of the file
    reference: with a file reference that differs in those two fields only,
    it targets the same url and ends with the same result in the same
    world, requests included. *)
Theorem fetch_ignores_url_and_name
    (params secrets file1 file2 : gmap string pyval) (last : pyval)
    (input_table : option string) (output_path : string) (w : World) :
  params !! "file" = Some (PDict file1) →
  same_but_url_and_name file1 file2 →
  fetch_arrow (<["file" := PDict file2]> params) secrets last input_table
    output_path w
  = fetch_arrow params secrets last input_table output_path w ∧
  ∀ sheet_id1 sheet_id2 : pyval,
    file1 !! "id" = Some sheet_id1 →
    file2 !! "id" = Some sheet_id2 →
    do_download_target sheet_id2 (declared_mime_type file2)
    = do_download_target sheet_id1 (declared_mime_type file1).
Proof.
  intros Hparams Hsame.
  pose proof (same_but_url_and_name_truthy _ _ Hsame) as Htruthy.
  destruct Hsame as [_ Hagree].
  assert (Hid : file1 !! "id" = file2 !! "id")
    by (apply Hagree; discriminate).
  assert (Hmime : file1 !! "mimeType" = file2 !! "mimeType")
    by (apply Hagree; discriminate).
  split.
  - unfold fetch_arrow.
    rewrite (dict_getitem_Some _ _ _ Hparams).
    rewrite (dict_getitem_Some (<["file" := PDict file2]> params) "file"
               (PDict file2)) by apply lookup_insert_eq.
    mstep. rewrite <- Htruthy.
    destruct (truthy (PDict file1)); mstep; [| reflexivity].
    unfold dict_getitem, py_get. rewrite <- Hid, <- Hmime. reflexivity.
  - intros sheet_id1 sheet_id2 Hid1 Hid2.
    unfold declared_mime_type. rewrite <- Hmime.
    rewrite Hid1 in Hid. rewrite Hid2 in Hid. injection Hid as ->.
    reflexivity.
Qed.

(** C7. For params of the legacy schema, [migrate_params] returns the
    current schema: [file] is null when [googlefileselect] is the empty
    string and its JSON-decoded value otherwise, and [has_header] and
    [version_select] are kept. *)
Theorem migrate_params_v0 (params : gmap string pyval) (encoded : string)
    (has_header version_select : pyval) :
  params !! "googlefileselect" = Some (PStr encoded) →
  params !! "has_header" = Some has_header →
  params !! "version_select" = Some version_select →
  (encoded = EmptyString →
   migrate_params params
   = Return (params_v1 has_header version_select PNone)) ∧
  (∀ decoded : pyval,
     encoded ≠ EmptyString →
     json_loads (PStr encoded) = Return decoded →
     migrate_params params
     = Return (params_v1 has_header version_select decoded)).
Proof.
  intros Hselect Hheader Hversion.
  assert (Hlegacy : bool_decide (is_Some (params !! "googlefileselect")) = true)
    by (apply bool_decide_eq_true_2; eauto).
  unfold migrate_params, _migrate_params_v0_to_v1. rewrite Hlegacy.
  rewrite (dict_getitem_Some _ _ _ Hselect), (dict_getitem_Some _ _ _ Hheader),
    (dict_getitem_Some _ _ _ Hversion).
  split.
  - intros ->. reflexivity.
  - intros decoded Hne Hdecoded. rewrite res_bind_Return.
    assert (Htruthy : truthy (PStr encoded) = true).
    { simpl. destruct (String.eqb_spec encoded EmptyString);
        [contradiction | reflexivity]. }
    rewrite Htruthy, res_bind_Return, Hdecoded. reflexivity.
Qed.

(** The params the migration builds do not hold the legacy key. *)
Lemma migrate_v0_to_v1_current (params migrated : gmap string pyval) :
  _migrate_params_v0_to_v1 params = Return migrated →
  migrated !! "googlefileselect" = None.
Proof.
  unfold _migrate_params_v0_to_v1. intros Hrun.
  destruct (dict_getitem params "googlefileselect") as [selected |];
    [| discriminate].
  rewrite res_bind_Return in Hrun.
  destruct (if truthy selected then _ else _) as [file |]; [| discriminate].
  rewrite res_bind_Return in Hrun.
  destruct (dict_getitem params "has_header") as [has_header |];
    [| discriminate].
  rewrite res_bind_Return in Hrun.
  destruct (dict_getitem params "version_select") as [version_select |];
    [| discriminate].
  rewrite res_bind_Return in Hrun. injection Hrun as <-.
  do 3 rewrite lookup_insert_ne by discriminate. apply lookup_empty.
Qed.

(** C8. [migrate_params] is idempotent, and it returns params without the
    legacy key unchanged. *)
Theorem migrate_params_idempotent (params : gmap string pyval) :
  (migrate_params params ≫= migrate_params) = migrate_params params ∧
  (params !! "googlefileselect" = None →
   migrate_params params = Return params).
Proof.
  split.
  - destruct (migrate_params params) as [migrated | e] eqn:Hrun;
      [| reflexivity].
    rewrite res_bind_Return.
    assert (Hcurrent : migrated !! "googlefileselect" = None).
    { unfold migrate_params in Hrun.
      destruct (bool_decide (is_Some (params !! "googlefileselect")))
        eqn:Hlegacy.
      - exact (migrate_v0_to_v1_current _ _ Hrun).
      - injection Hrun as <-.
        apply bool_decide_eq_false_1 in Hlegacy.
        destruct (params !! "googlefileselect") eqn:Hkey; [| reflexivity].
        exfalso. apply Hlegacy. eauto. }
    unfold migrate_params. rewrite Hcurrent.
    rewrite bool_decide_eq_false_2 by (intros [? ?]; discriminate).
    reflexivity.
  - intros Hcurrent. unfold migrate_params. rewrite Hcurrent.
    rewrite bool_decide_eq_false_2 by (intros [? ?]; discriminate).
    reflexivity.
Qed.

(** ** Beyond the claims: how a fetch ends *)

(** [fetch_error] returns its one error on a truncated file, or raises on a
    missing one without changing anything. *)
Lemma fetch_error_cases (output_path : string) (m : I18nMessage) (w : World) :
  (is_Some (files w !! output_path) ∧
   fetch_error output_path m w
   = (Return (failed_fetch output_path m), truncated output_path w)) ∨
  (files w !! output_path = None ∧
   fetch_error output_path m w = (Raise (FileNotFoundError output_path), w)).
Proof.
  destruct (files w !! output_path) as [content |] eqn:Hfile.
  - left. split; [eauto |]. apply fetch_error_truncates.
    rewrite Hfile. eauto.
  - right. split; [reflexivity |]. apply fetch_error_missing. exact Hfile.
Qed.

(** The three ways [fetch_arrow] goes: it raises before anything happens,
    it reports one error, or it downloads the selected file with the stored
    credential. *)
Lemma fetch_arrow_cases (params secrets : gmap string pyval) (last : pyval)
    (input_table : option string) (output_path : string) (w : World) :
  (∃ e, fetch_arrow params secrets last input_table output_path w
        = (Raise e, w)) ∨
  (∃ m, fetch_arrow params secrets last input_table output_path w
        = fetch_error output_path m w) ∨
  (∃ (file : gmap string pyval) (sheet_id : pyval) (client : Client),
     file_selected params file sheet_id ∧
     credential_usable secrets client ∧
     fetch_arrow params secrets last input_table output_path w
     = do_download sheet_id (declared_mime_type file) client output_path w).
Proof.
  unfold fetch_arrow, py_get.
  destruct (params !! "file") as [file_meta |] eqn:Hparams;
    [rewrite (dict_getitem_Some _ _ _ Hparams)
    | rewrite (dict_getitem_None _ _ Hparams)];
    mstep; [| left; eexists; reflexivity].
  destruct (truthy file_meta) eqn:Htruthy; mstep;
    [| right; left; eexists; reflexivity].
  destruct file_meta as [| | | | | file]; mstep;
    try (left; eexists; reflexivity).
  destruct (file !! "id") as [sheet_id |] eqn:Hid;
    [rewrite (dict_getitem_Some _ _ _ Hid)
    | rewrite (dict_getitem_None _ _ Hid)];
    mstep; [| left; eexists; reflexivity].
  destruct (truthy sheet_id) eqn:Hsid; mstep;
    [| left; eexists; reflexivity].
  destruct (secrets !! "google_credentials") as [secret |] eqn:Hcred;
    mstep; [| right; left; eexists; reflexivity].
  destruct (truthy secret) eqn:Hsecret; mstep;
    [| right; left; eexists; reflexivity].
  destruct secret as [| b | z | s | l | credential];
    try discriminate Hsecret;
    try (left; eexists; reflexivity).
  - unfold py_contains.
    destruct (String.index 0 "error" s); mstep;
      [left; eexists; reflexivity |].
    destruct (String.index 0 "secret" s); mstep;
      left; eexists; reflexivity.
  - unfold py_contains.
    destruct (existsb (λ x, py_eq_str x "error") l); mstep;
      [left; eexists; reflexivity |].
    destruct (existsb (λ x, py_eq_str x "secret") l); mstep;
      left; eexists; reflexivity.
  - destruct (credential !! "error") as [stored |] eqn:Herr.
    { rewrite (py_contains_dict_Some _ _ _ Herr). mstep.
      rewrite (dict_getitem_Some _ _ _ Herr). mstep.
      destruct (I18nMessage_kwargs stored); mstep;
        [right; left; eexists; reflexivity | left; eexists; reflexivity]. }
    rewrite (py_contains_dict_None _ _ Herr). mstep.
    destruct (credential !! "secret") as [inner |] eqn:Hsec.
    2: { rewrite (py_contains_dict_None _ _ Hsec). mstep.
         left; eexists; reflexivity. }
    rewrite (py_contains_dict_Some _ _ _ Hsec). mstep.
    rewrite (dict_getitem_Some _ _ _ Hsec). mstep.
    destruct inner as [| | | | | inner]; mstep;
      try (left; eexists; reflexivity).
    destruct (inner !! "token_type") as [tt |] eqn:Htt;
      [rewrite (dict_getitem_Some _ _ _ Htt)
      | rewrite (dict_getitem_None _ _ Htt)];
      mstep; [| left; eexists; reflexivity].
    destruct (inner !! "access_token") as [at_ |] eqn:Hat;
      [rewrite (dict_getitem_Some _ _ _ Hat)
      | rewrite (dict_getitem_None _ _ Hat)];
      mstep; [| left; eexists; reflexivity].
    right; right.
    exists file, sheet_id,
      {| client_id := PNone; token_type := tt; access_token := at_ |}.
    split; [repeat split; assumption |].
    split; [| reflexivity].
    exists credential, inner. repeat split; assumption.
Qed.

(** How [do_download] ends for each answer of the transport. *)
Lemma do_download_outcomes (sheet_id sheet_mime_type : pyval)
    (client : Client) (output_path : string) (w : World) (url : string)
    (headers : gmap string string) (outcome : DownloadOutcome)
    (fs' : gmap string (list byte)) :
  add_token client (do_download_target sheet_id sheet_mime_type).1 ∅
  = Return (url, headers) →
  httpfile_download url output_path headers (files w) = (outcome, fs') →
  let w' := {| files := fs';
               requests := requests w ++ [mkRequest url headers output_path] |} in
  match outcome with
  | Downloaded =>
      do_download sheet_id sheet_mime_type client output_path w
      = (Return {| path := Some output_path; errors := [] |}, w')
  | Crashed e =>
      do_download sheet_id sheet_mime_type client output_path w = (Raise e, w')
  | _ =>
      ∃ m, do_download sheet_id sheet_mime_type client output_path w
           = fetch_error output_path m w'
  end.
Proof.
  intros Htoken Hdownload w'.
  rewrite (do_download_run _ _ _ _ _ _ _ _ _ Htoken Hdownload).
  destruct outcome; try reflexivity; eexists; reflexivity.
Qed.

(** Without a token [do_download] raises what [add_token] raised, before
    any request. *)
Lemma do_download_no_token (sheet_id sheet_mime_type : pyval)
    (client : Client) (output_path : string) (w : World) (e : exn) :
  add_token client (do_download_target sheet_id sheet_mime_type).1 ∅
  = Raise e →
  do_download sheet_id sheet_mime_type client output_path w = (Raise e, w).
Proof.
  intros Htoken. unfold do_download.
  destruct (do_download_target sheet_id sheet_mime_type) as [target mime].
  simpl in Htoken. rewrite Htoken. reflexivity.
Qed.

Lemma app_singleton_neq {A : Type} (l : list A) (x : A) : (l ++ [x])%list ≠ l.
Proof.
  intros Hsame. apply (f_equal length) in Hsame.
  rewrite length_app in Hsame. simpl in Hsame. lia.
Qed.

(** What a run that issued [request] did before the transport answered. *)
Lemma fetch_arrow_issued (params secrets : gmap string pyval) (last : pyval)
    (input_table : option string) (output_path : string) (w : World)
    (request : Request) :
  requests (fetch_arrow params secrets last input_table output_path w).2
  = (requests w ++ [request])%list →
  ∃ (file : gmap string pyval) (sheet_id : pyval) (client : Client),
    file_selected params file sheet_id ∧
    credential_usable secrets client ∧
    add_token client
      (do_download_target sheet_id (declared_mime_type file)).1 ∅
    = Return (req_url request, req_headers request) ∧
    req_output request = output_path ∧
    fetch_arrow params secrets last input_table output_path w
    = do_download sheet_id (declared_mime_type file) client output_path w.
Proof.
  intros Hrequest.
  destruct (fetch_arrow_request_inv params secrets last input_table
              output_path w)
    as (file & sheet_id & client & url & headers & Hfile & Hcred & Htoken).
  { rewrite Hrequest. apply app_singleton_neq. }
  exists file, sheet_id, client.
  pose proof (fetch_arrow_reaches_download _ _ _ _ last _ input_table
                output_path w Hfile Hcred) as Hrun.
  rewrite Hrun in Hrequest.
  rewrite (do_download_requests _ _ _ _ _ _ _ Htoken) in Hrequest.
  apply app_inj_tail in Hrequest as [_ <-]. simpl.
  split; [exact Hfile |]. split; [exact Hcred |]. split; [exact Htoken |].
  split; [reflexivity | exact Hrun].
Qed.

(** X1. When the transport answers the request of a fetch without an
    exception, [fetch_arrow] returns the output path with no error, and the
    files are those the transport left: nothing is truncated. *)
Theorem fetch_success (params secrets : gmap string pyval) (last : pyval)
    (input_table : option string) (output_path : string) (w : World)
    (request : Request) (fs' : gmap string (list byte)) :
  requests (fetch_arrow params secrets last input_table output_path w).2
  = (requests w ++ [request])%list →
  httpfile_download (req_url request) output_path (req_headers request)
    (files w)
  = (Downloaded, fs') →
  fetch_arrow params secrets last input_table output_path w
  = (Return {| path := Some output_path; errors := [] |},
     {| files := fs'; requests := requests w ++ [request] |}).
Proof.
  intros Hrequest Hdownload.
  destruct (fetch_arrow_issued _ _ _ _ _ _ _ Hrequest)
    as (file & sheet_id & client & _ & _ & Htoken & Houtput & ->).
  pose proof (do_download_outcomes _ _ _ _ _ _ _ _ _ Htoken Hdownload) as Hrun.
  simpl in Hrun. rewrite Hrun. destruct request; simpl in *. subst.
  reflexivity.
Qed.

(** X2. An exception of the transport that is not an [HttpError] leaves
    [fetch_arrow] as it is: no error entry is built and the output file is
    not truncated. *)
Theorem fetch_other_exception_propagates (params secrets : gmap string pyval)
    (last : pyval) (input_table : option string) (output_path : string)
    (w : World) (request : Request) (e : exn)
    (fs' : gmap string (list byte)) :
  requests (fetch_arrow params secrets last input_table output_path w).2
  = (requests w ++ [request])%list →
  httpfile_download (req_url request) output_path (req_headers request)
    (files w)
  = (Crashed e, fs') →
  fetch_arrow params secrets last input_table output_path w
  = (Raise e, {| files := fs'; requests := requests w ++ [request] |}).
Proof.
  intros Hrequest Hdownload.
  destruct (fetch_arrow_issued _ _ _ _ _ _ _ Hrequest)
    as (file & sheet_id & client & _ & _ & Htoken & Houtput & ->).
  pose proof (do_download_outcomes _ _ _ _ _ _ _ _ _ Htoken Hdownload) as Hrun.
  simpl in Hrun. rewrite Hrun. destruct request; simpl in *. subst.
  reflexivity.
Qed.

(** X3. Whatever [fetch_arrow] returns has the output path as its path and
    at most one error. Without an error, exactly one request was issued, to
    be written to the output path; with an error, the output file is zero
    bytes long. Errors and data are never stored together. *)
Theorem fetch_result_invariant (params secrets : gmap string pyval)
    (last : pyval) (input_table : option string) (output_path : string)
    (w w' : World) (result : FetchResult) :
  fetch_arrow params secrets last input_table output_path w
  = (Return result, w') →
  path result = Some output_path ∧
  ((errors result = [] ∧
    ∃ request, requests w' = (requests w ++ [request])%list ∧
               req_output request = output_path) ∨
   (∃ m, errors result = [ {| message := m; quick_fixes := [] |} ] ∧
         files w' !! output_path = Some [])).
Proof.
  assert (Herror : ∀ (m : I18nMessage) (w0 : World),
    fetch_error output_path m w0 = (Return result, w') →
    path result = Some output_path ∧
    ∃ m', errors result = [ {| message := m'; quick_fixes := [] |} ] ∧
          files w' !! output_path = Some []).
  { intros m w0 Hrun.
    destruct (fetch_error_cases output_path m w0) as [[_ Hok] | [_ Hraise]];
      rewrite Hrun in *; [| discriminate].
    injection Hok as -> ->. split; [reflexivity |].
    exists m. split; [reflexivity |]. apply lookup_insert_eq. }
  intros Hrun.
  destruct (fetch_arrow_cases params secrets last input_table output_path w)
    as [[e Hcase] | [[m Hcase] | (file & sheet_id & client & _ & _ & Hcase)]];
    rewrite Hcase in Hrun.
  - discriminate.
  - destruct (Herror _ _ Hrun) as [Hpath Herrors]. split; [exact Hpath |].
    right. exact Herrors.
  - destruct (add_token client
                (do_download_target sheet_id (declared_mime_type file)).1 ∅)
      as [[url headers] | e] eqn:Htoken.
    2: { rewrite (do_download_no_token _ _ _ _ _ _ Htoken) in Hrun.
         discriminate. }
    destruct (httpfile_download url output_path headers (files w))
      as [outcome fs'] eqn:Hdownload.
    pose proof (do_download_outcomes _ _ _ _ _ _ _ _ _ Htoken Hdownload)
      as Houtcome. simpl in Houtcome.
    destruct outcome as [| code theirs | theirs | e].
    + rewrite Houtcome in Hrun. injection Hrun as <- <-.
      split; [reflexivity |]. left. split; [reflexivity |].
      eexists. split; reflexivity.
    + destruct Houtcome as [m Houtcome]. rewrite Houtcome in Hrun.
      destruct (Herror _ _ Hrun) as [Hpath Herrors]. split; [exact Hpath |].
      right. exact Herrors.
    + destruct Houtcome as [m Houtcome]. rewrite Houtcome in Hrun.
      destruct (Herror _ _ Hrun) as [Hpath Herrors]. split; [exact Hpath |].
      right. exact Herrors.
    + rewrite Houtcome in Hrun. discriminate.
Qed.

(** X4. [fetch_arrow] calls the transport at most once, on the files as it
    found them: either the world is as it was, or only the output file was
    truncated, or the files are those one call of [httpfile.download] for the
    output path left of the initial files, with at most the output file
    truncated afterwards. There is no retry. *)
Theorem fetch_at_most_one_transport_call (params secrets : gmap string pyval)
    (last : pyval) (input_table : option string) (output_path : string)
    (w : World) :
  ((fetch_arrow params secrets last input_table output_path w).2 = w ∨
   (fetch_arrow params secrets last input_table output_path w).2
   = truncated output_path w) ∨
  ∃ (url : string) (headers : gmap string string) (outcome : DownloadOutcome)
    (fs' : gmap string (list byte)),
    httpfile_download url output_path headers (files w) = (outcome, fs') ∧
    requests (fetch_arrow params secrets last input_table output_path w).2
    = (requests w ++ [mkRequest url headers output_path])%list ∧
    (files (fetch_arrow params secrets last input_table output_path w).2 = fs' ∨
     files (fetch_arrow params secrets last input_table output_path w).2
     = <[output_path := []]> fs').
Proof.
  assert (Herror : ∀ (m : I18nMessage) (w0 : World),
    (fetch_error output_path m w0).2 = w0 ∨
    (fetch_error output_path m w0).2 = truncated output_path w0).
  { intros m w0.
    destruct (fetch_error_cases output_path m w0) as [[_ Hok] | [_ Hraise]].
    - right. rewrite Hok. reflexivity.
    - left. rewrite Hraise. reflexivity. }
  destruct (fetch_arrow_cases params secrets last input_table output_path w)
    as [[e Hcase] | [[m Hcase] | (file & sheet_id & client & _ & _ & Hcase)]];
    rewrite Hcase.
  - left. left. reflexivity.
  - left. destruct (Herror m w) as [Hsame | Htruncated]; [left | right];
      assumption.
  - destruct (add_token client
                (do_download_target sheet_id (declared_mime_type file)).1 ∅)
      as [[url headers] | e] eqn:Htoken.
    2: { left. left. rewrite (do_download_no_token _ _ _ _ _ _ Htoken).
         reflexivity. }
    right.
    destruct (httpfile_download url output_path headers (files w))
      as [outcome fs'] eqn:Hdownload.
    exists url, headers, outcome, fs'.
    split; [exact Hdownload |].
    split; [apply do_download_requests; exact Htoken |].
    pose proof (do_download_outcomes _ _ _ _ _ _ _ _ _ Htoken Hdownload)
      as Houtcome. simpl in Houtcome.
    destruct outcome as [| code theirs | theirs | e].
    + left. rewrite Houtcome. reflexivity.
    + destruct Houtcome as [m Houtcome]. rewrite Houtcome.
      destruct (Herror m {| files := fs';
                            requests := requests w ++
                              [mkRequest url headers output_path] |})
        as [Hsame | Htruncated];
        [left; rewrite Hsame | right; rewrite Htruncated]; reflexivity.
    + destruct Houtcome as [m Houtcome]. rewrite Houtcome.
      destruct (Herror m {| files := fs';
                            requests := requests w ++
                              [mkRequest url headers output_path] |})
        as [Hsame | Htruncated];
        [left; rewrite Hsame | right; rewrite Htruncated]; reflexivity.
    + left. rewrite Houtcome. reflexivity.
Qed.

(** X5. A fetch that issues no request changes nothing but the output file,
    which it truncates or leaves alone: no other file is written, created or
    removed. *)
Theorem fetch_without_request_frame (params secrets : gmap string pyval)
    (last : pyval) (input_table : option string) (output_path : string)
    (w : World) :
  requests (fetch_arrow params secrets last input_table output_path w).2
  = requests w →
  (fetch_arrow params secrets last input_table output_path w).2 = w ∨
  (fetch_arrow params secrets last input_table output_path w).2
  = truncated output_path w.
Proof.
  destruct (fetch_arrow_cases params secrets last input_table output_path w)
    as [[e Hcase] | [[m Hcase] | (file & sheet_id & client & _ & _ & Hcase)]];
    rewrite Hcase; intros Hsame.
  - left. reflexivity.
  - destruct (fetch_error_cases output_path m w) as [[_ Hok] | [_ Hraise]].
    + right. rewrite Hok. reflexivity.
    + left. rewrite Hraise. reflexivity.
  - destruct (add_token client
                (do_download_target sheet_id (declared_mime_type file)).1 ∅)
      as [[url headers] | e] eqn:Htoken.
    + rewrite (do_download_requests _ _ _ _ _ _ _ Htoken) in Hsame.
      exfalso. exact (app_singleton_neq _ _ Hsame).
    + left. rewrite (do_download_no_token _ _ _ _ _ _ Htoken). reflexivity.
Qed.

(** X6. A file reference that is not a dict with a non-empty [id] makes
    [fetch_arrow] raise before it looks at the secrets or touches the output
    file: [KeyError] without the key [file] or without [id], [TypeError]
    for a non-empty value that is not a dict, [RuntimeError] for an empty
    [id]. *)
Theorem fetch_malformed_file (params secrets : gmap string pyval)
    (last : pyval) (input_table : option string) (output_path : string)
    (w : World) :
  (params !! "file" = None →
   fetch_arrow params secrets last input_table output_path w
   = (Raise (KeyError "file"), w)) ∧
  (∀ file_meta : pyval,
     params !! "file" = Some file_meta →
     truthy file_meta = true →
     (∀ file, file_meta ≠ PDict file) →
     fetch_arrow params secrets last input_table output_path w
     = (Raise TypeError, w)) ∧
  (∀ file : gmap string pyval,
     params !! "file" = Some (PDict file) →
     file ≠ ∅ →
     file !! "id" = None →
     fetch_arrow params secrets last input_table output_path w
     = (Raise (KeyError "id"), w)) ∧
  (∀ (file : gmap string pyval) (sheet_id : pyval),
     params !! "file" = Some (PDict file) →
     file !! "id" = Some sheet_id →
     truthy sheet_id = false →
     fetch_arrow params secrets last input_table output_path w
     = (Raise (RuntimeError "Missing file.id"), w)).
Proof.
  assert (Hdict : ∀ file : gmap string pyval,
    file ≠ ∅ → truthy (PDict file) = true).
  { intros file Hne. simpl. rewrite bool_decide_eq_false_2 by exact Hne.
    reflexivity. }
  split; [| split; [| split]].
  - intros Hparams. unfold fetch_arrow.
    rewrite (dict_getitem_None _ _ Hparams). reflexivity.
  - intros file_meta Hparams Htruthy Hother. unfold fetch_arrow.
    rewrite (dict_getitem_Some _ _ _ Hparams). mstep. rewrite Htruthy. mstep.
    destruct file_meta as [| | | | | file]; mstep; try reflexivity.
    exfalso. exact (Hother file eq_refl).
  - intros file Hparams Hne Hid. unfold fetch_arrow.
    rewrite (dict_getitem_Some _ _ _ Hparams). mstep.
    rewrite (Hdict _ Hne). mstep.
    rewrite (dict_getitem_None _ _ Hid). reflexivity.
  - intros file sheet_id Hparams Hid Hsid. unfold fetch_arrow.
    rewrite (dict_getitem_Some _ _ _ Hparams). mstep.
    rewrite Hdict by (intros ->; rewrite lookup_empty in Hid; discriminate).
    mstep. rewrite (dict_getitem_Some _ _ _ Hid). mstep. rewrite Hsid.
    reflexivity.
Qed.

(** X7. With a file selected, a stored credential that holds neither [error]
    nor [secret] fails the assertion of [fetch_arrow], and a [secret]
    without [token_type] or without [access_token] raises [KeyError]; in
    each case nothing is requested and the output file is not touched. *)
Theorem fetch_malformed_credential
    (params secrets file credential : gmap string pyval)
    (sheet_id last : pyval) (input_table : option string)
    (output_path : string) (w : World) :
  file_selected params file sheet_id →
  secrets !! "google_credentials" = Some (PDict credential) →
  credential ≠ ∅ →
  credential !! "error" = None →
  (credential !! "secret" = None →
   fetch_arrow params secrets last input_table output_path w
   = (Raise AssertionError, w)) ∧
  (∀ inner : gmap string pyval,
     credential !! "secret" = Some (PDict inner) →
     inner !! "token_type" = None →
     fetch_arrow params secrets last input_table output_path w
     = (Raise (KeyError "token_type"), w)) ∧
  (∀ (inner : gmap string pyval) (tt : pyval),
     credential !! "secret" = Some (PDict inner) →
     inner !! "token_type" = Some tt →
     inner !! "access_token" = None →
     fetch_arrow params secrets last input_table output_path w
     = (Raise (KeyError "access_token"), w)).
Proof.
  intros Hfile Hcred Hne Herr.
  pose proof (file_selected_truthy _ _ _ Hfile) as Htruthy.
  destruct Hfile as (Hparams & Hid & Hsid).
  assert (Hsecret : truthy (PDict credential) = true).
  { simpl. rewrite bool_decide_eq_false_2 by exact Hne. reflexivity. }
  unfold fetch_arrow, py_get.
  rewrite (dict_getitem_Some _ _ _ Hparams). mstep.
  rewrite Htruthy. mstep. rewrite (dict_getitem_Some _ _ _ Hid). mstep.
  rewrite Hsid. mstep. rewrite Hcred. mstep. rewrite Hsecret. mstep.
  rewrite (py_contains_dict_None _ _ Herr). mstep. cbv iota.
  split; [| split].
  - intros Hsec. rewrite (py_contains_dict_None _ _ Hsec). reflexivity.
  - intros inner Hsec Htt.
    rewrite (py_contains_dict_Some _ _ _ Hsec). mstep. cbv iota.
    rewrite (dict_getitem_Some _ _ _ Hsec). mstep.
    rewrite (dict_getitem_None _ _ Htt). reflexivity.
  - intros inner tt Hsec Htt Hat.
    rewrite (py_contains_dict_Some _ _ _ Hsec). mstep. cbv iota.
    rewrite (dict_getitem_Some _ _ _ Hsec). mstep.
    rewrite (dict_getitem_Some _ _ _ Htt). mstep.
    rewrite (dict_getitem_None _ _ Hat). reflexivity.
Qed.

(** X8. When the OAuth client refuses to add the token, [fetch_arrow]
    raises what the client raised: no request is issued, no error entry is
    built, and the output file is not truncated. *)
Theorem fetch_token_failure_propagates
    (params secrets file : gmap string pyval) (sheet_id last : pyval)
    (client : Client) (input_table : option string) (output_path : string)
    (w : World) (e : exn) :
  file_selected params file sheet_id →
  credential_usable secrets client →
  add_token client
    (do_download_target sheet_id (declared_mime_type file)).1 ∅
  = Raise e →
  fetch_arrow params secrets last input_table output_path w = (Raise e, w).
Proof.
  intros Hfile Hcred Htoken.
  rewrite (fetch_arrow_reaches_download _ _ _ _ _ _ _ _ _ Hfile Hcred).
  apply do_download_no_token. exact Htoken.
Qed.

(** X9. When the output file does not exist, the failures [fetch_arrow]
    would report end in [FileNotFoundError] instead: without a file chosen,
    and with a file chosen but no credential, no result is returned and
    nothing is created. *)
Theorem fetch_error_needs_output_file (params secrets : gmap string pyval)
    (last : pyval) (input_table : option string) (output_path : string)
    (w : World) :
  files w !! output_path = None →
  (∀ file_meta : pyval,
     params !! "file" = Some file_meta →
     truthy file_meta = false →
     fetch_arrow params secrets last input_table output_path w
     = (Raise (FileNotFoundError output_path), w)) ∧
  (∀ (file : gmap string pyval) (sheet_id : pyval),
     file_selected params file sheet_id →
     credential_absent secrets →
     fetch_arrow params secrets last input_table output_path w
     = (Raise (FileNotFoundError output_path), w)).
Proof.
  intros Hmissing. split.
  - intros file_meta Hparams Hfalsy. unfold fetch_arrow.
    rewrite (dict_getitem_Some _ _ _ Hparams). mstep. rewrite Hfalsy. mstep.
    apply fetch_error_missing. exact Hmissing.
  - intros file sheet_id Hfile Habsent.
    pose proof (file_selected_truthy _ _ _ Hfile) as Htruthy.
    destruct Hfile as (Hparams & Hid & Hsid).
    unfold credential_absent in Habsent. unfold fetch_arrow, py_get.
    rewrite (dict_getitem_Some _ _ _ Hparams). mstep.
    rewrite Htruthy. mstep. rewrite (dict_getitem_Some _ _ _ Hid). mstep.
    rewrite Hsid. mstep. rewrite Habsent. mstep.
    apply fetch_error_missing. exact Hmissing.
Qed.

(** X10. [fetch_arrow] reads nothing of its arguments but [params["file"]]
    and [secrets["google_credentials"]]: the other params (the header flag,
    the version), the other secrets, the last fetch result and the input
    table do not change what it does. *)
Theorem fetch_reads_file_and_credential_only
    (params1 params2 secrets1 secrets2 : gmap string pyval)
    (last1 last2 : pyval) (input_table1 input_table2 : option string)
    (output_path : string) (w : World) :
  params1 !! "file" = params2 !! "file" →
  secrets1 !! "google_credentials" = secrets2 !! "google_credentials" →
  fetch_arrow params1 secrets1 last1 input_table1 output_path w
  = fetch_arrow params2 secrets2 last2 input_table2 output_path w.
Proof.
  intros Hfile Hcred. unfold fetch_arrow, dict_getitem.
  rewrite Hfile, Hcred. reflexivity.
Qed.

(** ** Beyond the claims: render *)

Lemma on_files_requests {A : Type}
    (f : gmap string (list byte) → res A * gmap string (list byte))
    (w : World) :
  requests (on_files f w).2 = requests w.
Proof. unfold on_files. destruct (f (files w)). reflexivity. Qed.

(** X11. [render] changes the files through at most one call of a library,
    on the files as it found them and for the output path: either the world
    is as it was, or the files are those the parquet conversion of the
    fetched file left, or those the parser left. It issues no request and
    downloads nothing. *)
Theorem render_writes_through_one_call (table : pyval)
    (params : gmap string pyval) (output_path : string)
    (fetch_result : option FetchResult) (w : World) :
  render table params output_path fetch_result w
  = ((render table params output_path fetch_result w).1, w) ∨
  (∃ (input_path : string) (converted : res unit)
     (fs' : gmap string (list byte)),
     (fetch_result ≫= path) = Some input_path ∧
     convert_parquet_file_to_arrow_file input_path output_path (files w)
     = (converted, fs') ∧
     (render table params output_path fetch_result w).2
     = {| files := fs'; requests := requests w |}) ∨
  (∃ (body : list byte) (mime_type : string) (has_header : pyval)
     (parsed : res (list I18nMessage)) (fs' : gmap string (list byte)),
     params !! "has_header" = Some has_header ∧
     parse_file body mime_type has_header output_path (files w)
     = (parsed, fs') ∧
     render table params output_path fetch_result w
     = (parsed, {| files := fs'; requests := requests w |})).
Proof.
  assert (Hfile : ∀ p : option string,
    _render_file p params output_path w
    = ((_render_file p params output_path w).1, w) ∨
    ∃ (body : list byte) (mime_type : string) (has_header : pyval)
      (parsed : res (list I18nMessage)) (fs' : gmap string (list byte)),
      params !! "has_header" = Some has_header ∧
      parse_file body mime_type has_header output_path (files w)
      = (parsed, fs') ∧
      _render_file p params output_path w
      = (parsed, {| files := fs'; requests := requests w |})).
  { intros p. unfold _render_file, reading, lift, raise, mbind, M_bind.
    destruct (httpfile_read p (files w)) as [[headers body] | e];
      [| left; reflexivity].
    destruct (extract_first_header headers "Content-Type") as [content_type |];
      [| left; reflexivity].
    destruct (_calculate_mime_type content_type) as [mime_type | e];
      [| left; reflexivity].
    unfold dict_getitem.
    destruct (params !! "has_header") as [has_header |] eqn:Hheader;
      [| left; reflexivity].
    right. unfold on_files.
    destruct (parse_file body mime_type has_header output_path (files w))
      as [parsed fs'] eqn:Hparse.
    exists body, mime_type, has_header, parsed, fs'.
    split; [reflexivity |]. split; [exact Hparse | reflexivity]. }
  assert (Hrest : ∀ (l : list RenderError) (p : option string),
    let run := match l with
               | _ :: _ => (Return (message <$> l), w)
               | [] => _render_file p params output_path w
               end in
    run = (run.1, w) ∨
    ∃ (body : list byte) (mime_type : string) (has_header : pyval)
      (parsed : res (list I18nMessage)) (fs' : gmap string (list byte)),
      params !! "has_header" = Some has_header ∧
      parse_file body mime_type has_header output_path (files w)
      = (parsed, fs') ∧
      run = (parsed, {| files := fs'; requests := requests w |})).
  { intros l p. destruct l; [apply Hfile | left; reflexivity]. }
  destruct fetch_result as [r |]; [| left; reflexivity].
  destruct (path r) as [p |] eqn:Hpath.
  - destruct (file_has_parquet_magic_number p (files w)) as [[|] | e]
      eqn:Hmagic.
    + right. left. rewrite (render_legacy _ _ _ _ _ _ Hpath Hmagic).
      unfold _render_deprecated_parquet, on_files, mbind, M_bind.
      destruct (convert_parquet_file_to_arrow_file p output_path (files w))
        as [converted fs'] eqn:Hconvert.
      exists p, converted, fs'.
      split; [exact Hpath |]. split; [exact Hconvert |].
      destruct converted as [[] | e]; [| reflexivity].
      unfold lift. destruct (dict_getitem params "has_header") as [h | e];
        [| reflexivity].
      destruct (truthy h); reflexivity.
    + assert (Hnone : no_legacy_signature r w)
        by (unfold no_legacy_signature; rewrite Hpath; exact Hmagic).
      rewrite (render_current _ _ _ _ _ Hnone), Hpath.
      destruct (Hrest (errors r) (Some p)) as [Hsame | Hparsed];
        [left; exact Hsame | right; right; exact Hparsed].
    + left. unfold render. rewrite Hpath.
      unfold reading, mbind, M_bind. rewrite Hmagic. reflexivity.
  - assert (Hnone : no_legacy_signature r w)
      by (unfold no_legacy_signature; rewrite Hpath; exact I).
    rewrite (render_current _ _ _ _ _ Hnone), Hpath.
    destruct (Hrest (errors r) None) as [Hsame | Hparsed];
      [left; exact Hsame | right; right; exact Hparsed].
Qed.

(** The first element a predicate holds of. *)
Lemma find_first {A : Type} (f : A → bool) (l : list A) (x : A) :
  find f l = Some x ↔
  ∃ before after, l = (before ++ x :: after)%list ∧ f x = true ∧
                  Forall (λ y, f y = false) before.
Proof.
  induction l as [| y l IH]; simpl.
  - split; [discriminate |].
    intros (before & after & Hl & _). destruct before; discriminate.
  - destruct (f y) eqn:Hy.
    + split.
      * intros [= ->]. exists [], l. repeat split; [exact Hy | constructor].
      * intros (before & after & Hl & Hx & Hbefore).
        destruct before as [| z before]; simpl in Hl; injection Hl as -> ->.
        -- reflexivity.
        -- inversion Hbefore; congruence.
    + rewrite IH. split.
      * intros (before & after & -> & Hx & Hbefore).
        exists (y :: before), after. repeat split; [exact Hx |].
        constructor; assumption.
      * intros (before & after & Hl & Hx & Hbefore).
        destruct before as [| z before]; simpl in Hl; injection Hl as -> ->.
        -- congruence.
        -- exists before, after. inversion Hbefore. repeat split; assumption.
Qed.

Lemma find_none_Forall {A : Type} (f : A → bool) (l : list A) :
  find f l = None ↔ Forall (λ y, f y = false) l.
Proof.
  induction l as [| y l IH]; simpl.
  - split; [constructor | reflexivity].
  - destruct (f y) eqn:Hy.
    + split; [discriminate |]. inversion 1; congruence.
    + rewrite IH. split; [constructor; assumption | inversion 1; assumption].
Qed.

(** X12. [_calculate_mime_type] returns the first value of [MimeType], in
    iteration order, that the content type starts with, and raises
    [RuntimeError], naming the content type, exactly when it starts with
    none. *)
Theorem calculate_mime_type_first_match (content_type : string) :
  (∀ mime_type : string,
     _calculate_mime_type content_type = Return mime_type ↔
     ∃ before after : list string,
       MimeType = (before ++ mime_type :: after)%list ∧
       String.prefix mime_type content_type = true ∧
       Forall (λ m, String.prefix m content_type = false) before) ∧
  (_calculate_mime_type content_type
   = Raise (RuntimeError ("Unsupported content_type " ++ content_type)) ↔
   Forall (λ m, String.prefix m content_type = false) MimeType).
Proof.
  unfold _calculate_mime_type. split.
  - intros mime_type.
    rewrite <- (find_first (λ m, String.prefix m content_type)).
    destruct (find _ MimeType); split; congruence.
  - rewrite <- (find_none_Forall (λ m, String.prefix m content_type)).
    destruct (find _ MimeType); split; congruence.
Qed.

Lemma prefix_app (s rest : string) : String.prefix s (s ++ rest) = true.
Proof.
  induction s as [| a s IH]; simpl.
  - destruct rest; reflexivity.
  - destruct (Ascii.ascii_dec a a); [exact IH | contradiction].
Qed.

(** X13. A supported MIME type followed by anything (a charset, other
    parameters) is never rejected: [_calculate_mime_type] returns a value of
    [MimeType] that the content type starts with. The charset the server
    reports plays no part. *)
Theorem calculate_mime_type_accepts_parameters (mime_type rest : string) :
  In mime_type MimeType →
  ∃ found : string,
    _calculate_mime_type (mime_type ++ rest) = Return found ∧
    In found MimeType ∧
    String.prefix found (mime_type ++ rest) = true.
Proof.
  intros Hin. unfold _calculate_mime_type.
  destruct (find (λ m, String.prefix m (mime_type ++ rest)) MimeType)
    as [found |] eqn:Hfind.
  - exists found. apply find_some in Hfind as [Hfound Hprefix].
    repeat split; assumption.
  - exfalso. pose proof (find_none _ _ Hfind _ Hin) as Hnone.
    simpl in Hnone. rewrite prefix_app in Hnone. discriminate.
Qed.

(** X14. For a fetch result without errors and without the legacy
    signature, [render] parses the stored body: with the MIME type computed
    from the stored Content-Type header and the [has_header] of the params.
    What the parser returns or raises is what [render] returns or raises,
    and the files are those the parser left. *)
Theorem render_parses_stored_body (table : pyval)
    (params : gmap string pyval) (output_path : string)
    (fetch_result : FetchResult) (w : World)
    (headers : list (string * string)) (body : list byte)
    (content_type mime_type : string) (has_header : pyval)
    (parsed : res (list I18nMessage)) (fs' : gmap string (list byte)) :
  errors fetch_result = [] →
  no_legacy_signature fetch_result w →
  httpfile_read (path fetch_result) (files w) = Return (headers, body) →
  extract_first_header headers "Content-Type" = Some content_type →
  _calculate_mime_type content_type = Return mime_type →
  params !! "has_header" = Some has_header →
  parse_file body mime_type has_header output_path (files w) = (parsed, fs') →
  render table params output_path (Some fetch_result) w
  = (parsed, {| files := fs'; requests := requests w |}).
Proof.
  intros Herrors Hmagic Hread Hheader Hmime Hparams Hparse.
  rewrite (render_current _ _ _ _ _ Hmagic), Herrors.
  unfold _render_file, reading, mbind, M_bind. rewrite Hread, Hheader.
  unfold lift. rewrite Hmime, (dict_getitem_Some _ _ _ Hparams).
  unfold on_files. rewrite Hparse. reflexivity.
Qed.

(** X15. For a fetch result without errors and without the legacy
    signature, [render] raises and writes nothing when the stored response
    cannot be read, has no Content-Type header or one of an unsupported
    type, or when the params lack [has_header]. *)
Theorem render_stored_body_failures (table : pyval)
    (params : gmap string pyval) (output_path : string)
    (fetch_result : FetchResult) (w : World) :
  errors fetch_result = [] →
  no_legacy_signature fetch_result w →
  (∀ e, httpfile_read (path fetch_result) (files w) = Raise e →
        render table params output_path (Some fetch_result) w
        = (Raise e, w)) ∧
  (∀ headers body,
     httpfile_read (path fetch_result) (files w) = Return (headers, body) →
     (extract_first_header headers "Content-Type" = None →
      render table params output_path (Some fetch_result) w
      = (Raise AttributeError, w)) ∧
     (∀ content_type,
        extract_first_header headers "Content-Type" = Some content_type →
        (Forall (λ m, String.prefix m content_type = false) MimeType →
         render table params output_path (Some fetch_result) w
         = (Raise (RuntimeError ("Unsupported content_type " ++ content_type)),
            w)) ∧
        (∀ mime_type,
           _calculate_mime_type content_type = Return mime_type →
           params !! "has_header" = None →
           render table params output_path (Some fetch_result) w
           = (Raise (KeyError "has_header"), w)))).
Proof.
  intros Herrors Hmagic.
  rewrite (render_current _ _ _ _ _ Hmagic), Herrors.
  unfold _render_file, reading, mbind, M_bind. split.
  - intros e Hread. rewrite Hread. reflexivity.
  - intros headers body Hread. rewrite Hread. split.
    + intros Hheader. rewrite Hheader. reflexivity.
    + intros content_type Hheader. rewrite Hheader. unfold lift. split.
      * intros Hnone.
        apply (find_none_Forall (λ m, String.prefix m content_type)) in Hnone.
        unfold _calculate_mime_type. rewrite Hnone. reflexivity.
      * intros mime_type Hmime Hparams.
        rewrite Hmime, (dict_getitem_None _ _ Hparams). reflexivity.
Qed.

(** X16. On a file of the legacy format [render] converts first and looks
    at the params afterwards: when the params lack [has_header] it raises
    [KeyError] with the output already written, and when the conversion
    raises, its exception replaces the stored messages. *)
Theorem render_deprecated_parquet_failures (table : pyval)
    (params : gmap string pyval) (output_path : string)
    (fetch_result : FetchResult) (input_path : string) (w : World) :
  path fetch_result = Some input_path →
  file_has_parquet_magic_number input_path (files w) = Return true →
  (∀ fs',
     convert_parquet_file_to_arrow_file input_path output_path (files w)
     = (Return tt, fs') →
     params !! "has_header" = None →
     render table params output_path (Some fetch_result) w
     = (Raise (KeyError "has_header"),
        {| files := fs'; requests := requests w |})) ∧
  (∀ e fs',
     convert_parquet_file_to_arrow_file input_path output_path (files w)
     = (Raise e, fs') →
     render table params output_path (Some fetch_result) w
     = (Raise e, {| files := fs'; requests := requests w |})).
Proof.
  intros Hpath Hmagic.
  rewrite (render_legacy _ _ _ _ _ _ Hpath Hmagic).
  unfold _render_deprecated_parquet, on_files, mbind, M_bind. split.
  - intros fs' Hconvert Hparams. rewrite Hconvert. unfold lift.
    rewrite (dict_getitem_None _ _ Hparams). reflexivity.
  - intros e fs' Hconvert. rewrite Hconvert. reflexivity.
Qed.

(** X17. [render] reads nothing of the table it is given, and nothing of
    the params but [has_header]. *)
Theorem render_reads_has_header_only (table1 table2 : pyval)
    (params1 params2 : gmap string pyval) (output_path : string)
    (fetch_result : option FetchResult) (w : World) :
  params1 !! "has_header" = params2 !! "has_header" →
  render table1 params1 output_path fetch_result w
  = render table2 params2 output_path fetch_result w.
Proof.
  intros Hheader.
  unfold render, _render_deprecated_parquet, _render_file, dict_getitem.
  rewrite Hheader. reflexivity.
Qed.

(** ** Beyond the claims: the migration *)

(** X18. Migrated legacy params hold the three keys of the current schema
    and nothing else: [has_header] and [version_select] keep their values,
    and every other key of the legacy params is dropped. *)
Theorem migrate_params_v0_keys (params migrated : gmap string pyval) :
  is_Some (params !! "googlefileselect") →
  migrate_params params = Return migrated →
  dom migrated = ({["has_header"; "version_select"; "file"]} : gset string) ∧
  migrated !! "has_header" = params !! "has_header" ∧
  migrated !! "version_select" = params !! "version_select".
Proof.
  intros Hlegacy. unfold migrate_params.
  rewrite bool_decide_eq_true_2 by exact Hlegacy.
  unfold _migrate_params_v0_to_v1, dict_getitem. intros Hrun.
  destruct (params !! "googlefileselect") as [selected |]; [| discriminate].
  rewrite res_bind_Return in Hrun.
  destruct (if truthy selected then _ else _) as [file |]; [| discriminate].
  rewrite res_bind_Return in Hrun.
  destruct (params !! "has_header") as [has_header |]; [| discriminate].
  rewrite res_bind_Return in Hrun.
  destruct (params !! "version_select") as [version_select |];
    [| discriminate].
  rewrite res_bind_Return in Hrun. injection Hrun as <-.
  split; [| split].
  - rewrite !dom_insert_L, dom_empty_L. set_solver.
  - rewrite (lookup_insert_ne _ "file" "has_header") by discriminate.
    rewrite (lookup_insert_ne _ "version_select" "has_header") by discriminate.
    apply lookup_insert_eq.
  - rewrite (lookup_insert_ne _ "file" "version_select") by discriminate.
    apply lookup_insert_eq.
Qed.

(** X19. The migration of legacy params decodes first and copies
    afterwards: an exception of [json.loads] is raised as it is, and
    otherwise a missing [has_header], then a missing [version_select],
    raises [KeyError]. *)
Theorem migrate_params_v0_failures (params : gmap string pyval)
    (selected : pyval) :
  params !! "googlefileselect" = Some selected →
  (∀ e, truthy selected = true → json_loads selected = Raise e →
        migrate_params params = Raise e) ∧
  ((truthy selected = false ∨ ∃ file, json_loads selected = Return file) →
   (params !! "has_header" = None →
    migrate_params params = Raise (KeyError "has_header")) ∧
   (is_Some (params !! "has_header") →
    params !! "version_select" = None →
    migrate_params params = Raise (KeyError "version_select"))).
Proof.
  intros Hselect.
  assert (Hlegacy : bool_decide (is_Some (params !! "googlefileselect")) = true)
    by (apply bool_decide_eq_true_2; eauto).
  unfold migrate_params, _migrate_params_v0_to_v1. rewrite Hlegacy.
  rewrite (dict_getitem_Some _ _ _ Hselect), res_bind_Return. split.
  - intros e Htruthy Hjson. rewrite Htruthy, res_bind_Return, Hjson.
    reflexivity.
  - intros Hfile.
    assert (Hdecoded : ∃ file,
      (if truthy selected
       then Return selected ≫= (λ encoded, json_loads encoded)
       else mret PNone) = Return file).
    { destruct Hfile as [Hfalsy | [file Hjson]].
      - rewrite Hfalsy. eexists. reflexivity.
      - destruct (truthy selected); [| eexists; reflexivity].
        rewrite res_bind_Return, Hjson. eexists. reflexivity. }
    destruct Hdecoded as [file Hdecoded]. rewrite Hdecoded, res_bind_Return.
    split.
    + intros Hheader. rewrite (dict_getitem_None _ _ Hheader). reflexivity.
    + intros [has_header Hheader] Hversion.
      rewrite (dict_getitem_Some _ _ _ Hheader), res_bind_Return.
      rewrite (dict_getitem_None _ _ Hversion). reflexivity.
Qed.

(** X20. Any empty [googlefileselect] (null, zero, an empty dict, not only
    the empty string) migrates to a null [file], and [json.loads] is not
    consulted: the result is the same whatever it would do. *)
Theorem migrate_params_v0_empty_selection (params : gmap string pyval)
    (selected has_header version_select : pyval) :
  params !! "googlefileselect" = Some selected →
  truthy selected = false →
  params !! "has_header" = Some has_header →
  params !! "version_select" = Some version_select →
  migrate_params params = Return (params_v1 has_header version_select PNone).
Proof.
  intros Hselect Hfalsy Hheader Hversion.
  assert (Hlegacy : bool_decide (is_Some (params !! "googlefileselect")) = true)
    by (apply bool_decide_eq_true_2; eauto).
  unfold migrate_params, _migrate_params_v0_to_v1. rewrite Hlegacy.
  rewrite (dict_getitem_Some _ _ _ Hselect), res_bind_Return, Hfalsy.
  rewrite (dict_getitem_Some _ _ _ Hheader), (dict_getitem_Some _ _ _ Hversion).
  reflexivity.
Qed.

(** ** Beyond the claims: the urls *)

Lemma list_ascii_of_string_app (a b : string) :
  String.list_ascii_of_string (a ++ b)
  = (String.list_ascii_of_string a ++ String.list_ascii_of_string b)%list.
Proof. induction a as [| c a IH]; simpl; [| rewrite IH]; reflexivity. Qed.

Lemma list_ascii_of_string_inj (a b : string) :
  String.list_ascii_of_string a = String.list_ascii_of_string b → a = b.
Proof.
  intros Hsame. rewrite <- (String.string_of_list_ascii_of_string a), Hsame.
  apply String.string_of_list_ascii_of_string.
Qed.

Lemma string_app_inv_head (p a b : string) : p ++ a = p ++ b → a = b.
Proof.
  induction p as [| c p IH]; simpl; [intros Hsame; exact Hsame |].
  intros [= Hsame]. exact (IH Hsame).
Qed.

Lemma string_app_inv_tail (a b s : string) : a ++ s = b ++ s → a = b.
Proof.
  intros Hsame. apply list_ascii_of_string_inj.
  apply (f_equal String.list_ascii_of_string) in Hsame.
  rewrite !list_ascii_of_string_app in Hsame.
  exact (app_inv_tail _ _ _ Hsame).
Qed.

(** X21. Files with different ids are fetched from different urls, both
    when exported and when downloaded. *)
Theorem download_urls_distinguish_ids (id1 id2 : string) :
  id1 ≠ id2 →
  _generate_google_sheet_url (PStr id1) ≠ _generate_google_sheet_url (PStr id2) ∧
  _generate_gdrive_file_url (PStr id1) ≠ _generate_gdrive_file_url (PStr id2).
Proof.
  intros Hne.
  unfold _generate_google_sheet_url, _generate_gdrive_file_url, py_fstring.
  split; intros Hsame; apply Hne;
    apply string_app_inv_head, string_app_inv_head in Hsame;
    exact (string_app_inv_tail _ _ _ Hsame).
Qed.

(** X22. The url [_generate_google_sheet_url] builds is never the string
    [_generate_gdrive_file_url] builds, whatever the two ids are. *)
Theorem export_url_is_no_download_url (sheet_id1 sheet_id2 : pyval) :
  _generate_google_sheet_url sheet_id1 ≠ _generate_gdrive_file_url sheet_id2.
Proof.
  unfold _generate_google_sheet_url, _generate_gdrive_file_url.
  intros Hsame.
  apply string_app_inv_head, string_app_inv_head in Hsame.
  apply (f_equal String.list_ascii_of_string) in Hsame.
  rewrite !list_ascii_of_string_app in Hsame.
  apply (f_equal (@rev _)) in Hsame.
  rewrite !rev_app_distr in Hsame. simpl in Hsame. discriminate.
Qed.

(** X23. A stored [error] that is not a dict, or that holds a key other
    than [id], [arguments] and [source], makes [fetch_arrow] raise
    [TypeError]: no error entry is returned and the output file is not
    truncated. *)
Theorem fetch_malformed_stored_error
    (params secrets file credential : gmap string pyval)
    (sheet_id stored last : pyval) (input_table : option string)
    (output_path : string) (w : World) :
  file_selected params file sheet_id →
  secrets !! "google_credentials" = Some (PDict credential) →
  credential !! "error" = Some stored →
  ((∀ kwargs, stored ≠ PDict kwargs) ∨
   (∃ kwargs (k : string),
      stored = PDict kwargs ∧ is_Some (kwargs !! k) ∧
      k ≠ "id" ∧ k ≠ "arguments" ∧ k ≠ "source")) →
  fetch_arrow params secrets last input_table output_path w
  = (Raise TypeError, w).
Proof.
  intros Hfile Hcred Hstored Hmalformed.
  pose proof (file_selected_truthy _ _ _ Hfile) as Htruthy.
  destruct Hfile as (Hparams & Hid & Hsid).
  assert (Hne : truthy (PDict credential) = true).
  { simpl. rewrite bool_decide_eq_false_2; [reflexivity |].
    intros ->. rewrite lookup_empty in Hstored. discriminate. }
  assert (Hkwargs : I18nMessage_kwargs stored = Raise TypeError).
  { destruct Hmalformed as [Hother | (kwargs & k & -> & Hk & Hid' & Harg & Hsrc)].
    - destruct stored; try reflexivity. exfalso. exact (Hother _ eq_refl).
    - unfold I18nMessage_kwargs. rewrite bool_decide_eq_false_2; [reflexivity |].
      intros Hsub. apply elem_of_dom in Hk. apply Hsub in Hk.
      rewrite !elem_of_union, !elem_of_singleton in Hk. tauto. }
  unfold fetch_arrow, py_get.
  rewrite (dict_getitem_Some _ _ _ Hparams). mstep.
  rewrite Htruthy. mstep. rewrite (dict_getitem_Some _ _ _ Hid). mstep.
  rewrite Hsid. mstep. rewrite Hcred. mstep. rewrite Hne. mstep.
  rewrite (py_contains_dict_Some _ _ _ Hstored). mstep. cbv iota.
  rewrite (dict_getitem_Some _ _ _ Hstored). mstep.
  rewrite Hkwargs. reflexivity.
Qed.

End properties.

(** ** The theorems at the inputs of the unit tests *)

Lemma default_file_selected (has_header : bool) :
  file_selected (P (PDict DEFAULT_FILE) has_header) DEFAULT_FILE DEFAULT_ID.
Proof. destruct has_header; repeat split; vm_compute; reflexivity. Defined.

Lemma default_secret_usable :
  credential_usable (secrets DEFAULT_SECRET) DEFAULT_CLIENT.
Proof.
  exists DEFAULT_SECRET,
    (<["access_token" := PStr "an-access-token"]>
       (<["token_type" := PStr "Bearer"]> ∅)).
  repeat split; vm_compute; reflexivity.
Defined.

Lemma http_failure_yields_one_error_witness :
  fetch_arrow (H := stub (NotSuccess 401 TIMEOUT_MESSAGE))
    (P (PDict DEFAULT_FILE) true) (secrets DEFAULT_SECRET) PNone None "out"
    stale_world
  = (Return (failed_fetch "out" (i18n_message "error.http.status401")),
     {| files := <["out" := []]> (<["out" := [x41]]> (files stale_world));
        requests := [mkRequest EXPORT_URL BEARER_HEADERS "out"] |}).
Proof.
  apply (http_failure_yields_one_error
           (H := stub (NotSuccess 401 TIMEOUT_MESSAGE))
           (P (PDict DEFAULT_FILE) true) (secrets DEFAULT_SECRET) PNone None
           "out" stale_world (mkRequest EXPORT_URL BEARER_HEADERS "out")
           (NotSuccess 401 TIMEOUT_MESSAGE)
           (<["out" := [x41]]> (files stale_world))).
  - vm_compute. reflexivity.
  - reflexivity.
  - exists [x41]. vm_compute. reflexivity.
  - exact (failure_401 (H := stub (NotSuccess 401 TIMEOUT_MESSAGE))
             TIMEOUT_MESSAGE).
Defined.

Lemma csv_file_selected :
  file_selected (P (PDict CSV_FILE) true) CSV_FILE DEFAULT_ID.
Proof. repeat split; vm_compute; reflexivity. Defined.

Lemma request_url_follows_mime_type_witness :
  (do_download_target (H := stub Downloaded) DEFAULT_ID
     (declared_mime_type DEFAULT_FILE)
   = (EXPORT_URL, PStr "text/csv") ∧
   requests
     (fetch_arrow (H := stub Downloaded) (P (PDict DEFAULT_FILE) true)
        (secrets DEFAULT_SECRET) PNone None "out" fresh_world).2
   = [mkRequest EXPORT_URL BEARER_HEADERS "out"]) ∧
  (do_download_target (H := stub Downloaded) DEFAULT_ID
     (declared_mime_type CSV_FILE)
   = (MEDIA_URL, PStr "text/csv") ∧
   requests
     (fetch_arrow (H := stub Downloaded) (P (PDict CSV_FILE) true)
        (secrets DEFAULT_SECRET) PNone None "out" fresh_world).2
   = [mkRequest MEDIA_URL BEARER_HEADERS "out"]).
Proof.
  split.
  - destruct (request_url_follows_mime_type (H := stub Downloaded)
                (P (PDict DEFAULT_FILE) true) (secrets DEFAULT_SECRET)
                DEFAULT_FILE DEFAULT_ID PNone DEFAULT_CLIENT None "out"
                fresh_world (default_file_selected true) default_secret_usable)
      as (Hexport & _ & Hrequest).
    split.
    + apply Hexport. right. vm_compute. reflexivity.
    + apply (Hrequest EXPORT_URL BEARER_HEADERS). vm_compute. reflexivity.
  - destruct (request_url_follows_mime_type (H := stub Downloaded)
                (P (PDict CSV_FILE) true) (secrets DEFAULT_SECRET)
                CSV_FILE DEFAULT_ID PNone DEFAULT_CLIENT None "out"
                fresh_world csv_file_selected default_secret_usable)
      as (_ & Hmedia & Hrequest).
    split.
    + apply (Hmedia (PStr "text/csv")).
      * vm_compute. reflexivity.
      * discriminate.
    + apply (Hrequest MEDIA_URL BEARER_HEADERS). vm_compute. reflexivity.
Defined.

Lemma render_deprecated_parquet_witness :
  render (H := stub Downloaded) PNone (P (PDict DEFAULT_FILE) false) "out"
    (Some LEGACY_RESULT) (with_fetched stale_world)
  = (Return [TIMEOUT_MESSAGE;
             i18n_message "error.parquet.cannotRemoveHeader"],
     {| files := <["out" := LEGACY_BYTES]> (files (with_fetched stale_world));
        requests := [] |}) ∧
  (render (H := stub Downloaded) PNone (P (PDict DEFAULT_FILE) true) "out"
     (Some LEGACY_RESULT) (with_fetched stale_world)).2
  = (render (H := stub Downloaded) PNone (P (PDict DEFAULT_FILE) false) "out"
       (Some LEGACY_RESULT) (with_fetched stale_world)).2.
Proof.
  destruct (render_deprecated_parquet (H := stub Downloaded) PNone
              (P (PDict DEFAULT_FILE) false) "out" LEGACY_RESULT "legacy"
              (PBool false)
              (<["out" := LEGACY_BYTES]> (files (with_fetched stale_world)))
              (with_fetched stale_world))
    as [Hrun Hsame].
  - reflexivity.
  - vm_compute. reflexivity.
  - vm_compute. reflexivity.
  - vm_compute. reflexivity.
  - split.
    + exact Hrun.
    + apply Hsame. vm_compute. reflexivity.
Defined.

Lemma failed_result_no_legacy_signature (w : World) :
  no_legacy_signature (H := stub Downloaded) FAILED_RESULT (with_fetched w).
Proof.
  unfold no_legacy_signature. simpl.
  rewrite lookup_insert_ne by discriminate. rewrite lookup_insert_eq.
  reflexivity.
Defined.

Lemma render_without_data_witness :
  render (H := stub Downloaded) PNone (P (PDict DEFAULT_FILE) true) "out"
    None (with_fetched fresh_world)
  = (Return [], with_fetched fresh_world) ∧
  render (H := stub Downloaded) PNone (P (PDict DEFAULT_FILE) true) "out"
    (Some FAILED_RESULT) (with_fetched fresh_world)
  = (Return [TIMEOUT_MESSAGE], with_fetched fresh_world) ∧
  empty_table "out"
    (render (H := stub Downloaded) PNone (P (PDict DEFAULT_FILE) true) "out"
       None (with_fetched fresh_world)).2 ∧
  empty_table "out"
    (render (H := stub Downloaded) PNone (P (PDict DEFAULT_FILE) true) "out"
       (Some FAILED_RESULT) (with_fetched fresh_world)).2.
Proof.
  destruct (render_without_data (H := stub Downloaded) PNone
              (P (PDict DEFAULT_FILE) true) "out" (with_fetched fresh_world))
    as (Habsent & Hfailed & Hfile).
  assert (Hempty : empty_table "out" (with_fetched fresh_world))
    by (vm_compute; reflexivity).
  split; [exact Habsent |]. split.
  - apply (Hfailed FAILED_RESULT).
    + discriminate.
    + apply failed_result_no_legacy_signature.
  - split.
    + apply (Hfile None I). exact Hempty.
    + apply (Hfile (Some FAILED_RESULT)); [| exact Hempty]. split.
      * discriminate.
      * apply failed_result_no_legacy_signature.
Defined.

(** C4 as stated fails: [render] without a fetch result leaves the stale
    bytes of the output file where they are. *)
Lemma render_absent_keeps_stale_output :
  render (H := stub Downloaded) PNone (P (PDict DEFAULT_FILE) true) "out" None
    stale_world
  = (Return [], stale_world) ∧
  ¬ empty_table "out"
      (render (H := stub Downloaded) PNone (P (PDict DEFAULT_FILE) true) "out"
         None stale_world).2.
Proof.
  split.
  - reflexivity.
  - unfold empty_table. vm_compute. discriminate.
Qed.

Lemma render_without_data_writes_nothing_witness :
  (render (H := stub Downloaded) PNone (P (PDict DEFAULT_FILE) true) "out"
     None (with_fetched stale_world)).2 = with_fetched stale_world ∧
  (render (H := stub Downloaded) PNone (P (PDict DEFAULT_FILE) true) "out"
     (Some FAILED_RESULT) (with_fetched stale_world)).2
  = with_fetched stale_world ∧
  (empty_table "out"
     (render (H := stub Downloaded) PNone (P (PDict DEFAULT_FILE) true) "out"
        (Some FAILED_RESULT) (with_fetched stale_world)).2
   ↔ empty_table "out" (with_fetched stale_world)).
Proof.
  destruct (render_without_data_writes_nothing (H := stub Downloaded) PNone
              (P (PDict DEFAULT_FILE) true) "out" (with_fetched stale_world))
    as [[Habsent Hfailed] Hfile].
  split; [exact Habsent |]. split.
  - apply (Hfailed FAILED_RESULT).
    + discriminate.
    + apply failed_result_no_legacy_signature.
  - apply (Hfile (Some FAILED_RESULT)). split.
    + discriminate.
    + apply failed_result_no_legacy_signature.
Defined.

Lemma fetch_without_file_or_credential_witness :
  fetch_arrow (H := stub Downloaded) (P PNone true) (secrets ERROR_SECRET)
    PNone None "out" stale_world
  = (Return (failed_fetch "out" (i18n_message "error.params.noFile")),
     truncated "out" stale_world) ∧
  fetch_arrow (H := stub Downloaded) (P (PDict DEFAULT_FILE) true) ∅ PNone
    None "out" stale_world
  = (Return (failed_fetch "out" (i18n_message "error.secrets.noCredentials")),
     truncated "out" stale_world).
Proof.
  assert (Hexists : is_Some (files stale_world !! "out"))
    by (exists [x73; x74; x61; x6c; x65]; vm_compute; reflexivity).
  split.
  - destruct (fetch_without_file_or_credential (H := stub Downloaded)
                (P PNone true) (secrets ERROR_SECRET) PNone None "out"
                stale_world Hexists) as [Hfile _].
    apply (Hfile PNone); vm_compute; reflexivity.
  - destruct (fetch_without_file_or_credential (H := stub Downloaded)
                (P (PDict DEFAULT_FILE) true) ∅ PNone None "out"
                stale_world Hexists) as [_ Hcredential].
    apply (Hcredential DEFAULT_FILE DEFAULT_ID).
    + exact (default_file_selected true).
    + vm_compute. reflexivity.
Defined.

(** C5 as stated fails: with a file reference whose [id] is empty and no
    credential, [fetch_arrow] raises before it looks at the credential, and
    the output file keeps its bytes. *)
Lemma fetch_empty_id_raises_before_credentials :
  fetch_arrow (H := stub Downloaded) (P (PDict FILE_WITHOUT_ID) true) ∅ PNone
    None "out" stale_world
  = (Raise (RuntimeError "Missing file.id"), stale_world) ∧
  truthy (PDict FILE_WITHOUT_ID) = true ∧
  credential_absent ∅ ∧
  (fetch_arrow (H := stub Downloaded) (P (PDict FILE_WITHOUT_ID) true) ∅ PNone
     None "out" stale_world).1
  ≠ Return (failed_fetch "out" (i18n_message "error.secrets.noCredentials")) ∧
  ¬ empty_table "out"
      (fetch_arrow (H := stub Downloaded) (P (PDict FILE_WITHOUT_ID) true) ∅
         PNone None "out" stale_world).2.
Proof.
  assert (Hrun :
    fetch_arrow (H := stub Downloaded) (P (PDict FILE_WITHOUT_ID) true) ∅ PNone
      None "out" stale_world
    = (Raise (RuntimeError "Missing file.id"), stale_world))
    by (vm_compute; reflexivity).
  rewrite Hrun.
  split; [reflexivity |].
  split; [vm_compute; reflexivity |].
  split; [vm_compute; reflexivity |].
  split; [discriminate |].
  unfold empty_table. vm_compute. discriminate.
Qed.

Lemma stored_error_passes_through_witness :
  fetch_arrow (H := stub Downloaded) (P (PDict DEFAULT_FILE) true)
    (secrets ERROR_SECRET) PNone None "out" stale_world
  = (Return (failed_fetch "out" STORED_MESSAGE), truncated "out" stale_world).
Proof.
  apply (stored_error_passes_through (H := stub Downloaded)
           (P (PDict DEFAULT_FILE) true) (secrets ERROR_SECRET) DEFAULT_FILE
           ERROR_SECRET DEFAULT_ID).
  - exact (default_file_selected true).
  - vm_compute. reflexivity.
  - vm_compute. reflexivity.
  - exists [x73; x74; x61; x6c; x65]. vm_compute. reflexivity.
Defined.

(** C6 as stated fails: when no file is chosen, a stored credential error
    is not what [fetch_arrow] returns. *)
Lemma fetch_without_file_hides_stored_error :
  fetch_arrow (H := stub Downloaded) (P PNone true) (secrets ERROR_SECRET)
    PNone None "out" stale_world
  = (Return (failed_fetch "out" (i18n_message "error.params.noFile")),
     truncated "out" stale_world) ∧
  py_getitem (PDict ERROR_SECRET) "error" = Return (PDict STORED_ERROR) ∧
  I18nMessage_kwargs (H := stub Downloaded) (PDict STORED_ERROR)
  = Return STORED_MESSAGE ∧
  (fetch_arrow (H := stub Downloaded) (P PNone true) (secrets ERROR_SECRET)
     PNone None "out" stale_world).1
  ≠ Return (failed_fetch "out" STORED_MESSAGE).
Proof.
  assert (Hrun :
    fetch_arrow (H := stub Downloaded) (P PNone true) (secrets ERROR_SECRET)
      PNone None "out" stale_world
    = (Return (failed_fetch "out" (i18n_message "error.params.noFile")),
       truncated "out" stale_world))
    by (vm_compute; reflexivity).
  rewrite Hrun.
  split; [reflexivity |].
  split; [vm_compute; reflexivity |].
  split; [vm_compute; reflexivity |].
  vm_compute. discriminate.
Qed.

Lemma renamed_file_same_but_url_and_name :
  same_but_url_and_name DEFAULT_FILE RENAMED_FILE.
Proof.
  split.
  - vm_compute. reflexivity.
  - intros k Hurl Hname. unfold RENAMED_FILE.
    rewrite lookup_insert_ne by congruence.
    rewrite lookup_insert_ne by congruence. reflexivity.
Defined.

Lemma fetch_ignores_url_and_name_witness :
  fetch_arrow (H := stub Downloaded)
    (<["file" := PDict RENAMED_FILE]> (P (PDict DEFAULT_FILE) true))
    (secrets DEFAULT_SECRET) PNone None "out" stale_world
  = fetch_arrow (H := stub Downloaded) (P (PDict DEFAULT_FILE) true)
      (secrets DEFAULT_SECRET) PNone None "out" stale_world ∧
  do_download_target (H := stub Downloaded) DEFAULT_ID
    (declared_mime_type RENAMED_FILE)
  = do_download_target (H := stub Downloaded) DEFAULT_ID
      (declared_mime_type DEFAULT_FILE).
Proof.
  destruct (fetch_ignores_url_and_name (H := stub Downloaded)
              (P (PDict DEFAULT_FILE) true) (secrets DEFAULT_SECRET)
              DEFAULT_FILE RENAMED_FILE PNone None "out" stale_world)
    as [Hresult Htarget].
  - vm_compute. reflexivity.
  - exact renamed_file_same_but_url_and_name.
  - split.
    + exact Hresult.
    + apply Htarget; vm_compute; reflexivity.
Defined.

Lemma migrate_params_v0_witness :
  migrate_params (H := stub Downloaded) (V0_PARAMS EmptyString)
  = Return (params_v1 (PBool false) (PStr EmptyString) PNone) ∧
  migrate_params (H := stub Downloaded) (V0_PARAMS "{}")
  = Return (params_v1 (PBool false) (PStr EmptyString) (PDict ∅)).
Proof.
  assert (Hkeys : ∀ encoded : string,
    V0_PARAMS encoded !! "googlefileselect" = Some (PStr encoded) ∧
    V0_PARAMS encoded !! "has_header" = Some (PBool false) ∧
    V0_PARAMS encoded !! "version_select" = Some (PStr EmptyString)).
  { intros encoded. unfold V0_PARAMS. split; [apply lookup_insert_eq |].
    split; vm_compute; reflexivity. }
  split.
  - destruct (Hkeys EmptyString) as (Hselect & Hheader & Hversion).
    destruct (migrate_params_v0 (H := stub Downloaded) (V0_PARAMS EmptyString)
                EmptyString (PBool false) (PStr EmptyString)
                Hselect Hheader Hversion) as [Hnone _].
    apply Hnone. reflexivity.
  - destruct (Hkeys "{}") as (Hselect & Hheader & Hversion).
    destruct (migrate_params_v0 (H := stub Downloaded) (V0_PARAMS "{}")
                "{}" (PBool false) (PStr EmptyString)
                Hselect Hheader Hversion) as [_ Hfile].
    apply (Hfile (PDict ∅)).
    + discriminate.
    + vm_compute. reflexivity.
Defined.

Lemma migrate_params_idempotent_witness :
  (migrate_params (H := stub Downloaded) (V0_PARAMS "{}")
   ≫= migrate_params (H := stub Downloaded))
  = migrate_params (H := stub Downloaded) (V0_PARAMS "{}") ∧
  migrate_params (H := stub Downloaded)
    (params_v1 (PBool false) (PStr EmptyString) (PDict DEFAULT_FILE))
  = Return (params_v1 (PBool false) (PStr EmptyString) (PDict DEFAULT_FILE)).
Proof.
  split.
  - apply (migrate_params_idempotent (H := stub Downloaded) (V0_PARAMS "{}")).
  - apply (migrate_params_idempotent (H := stub Downloaded)
             (params_v1 (PBool false) (PStr EmptyString) (PDict DEFAULT_FILE))).
    vm_compute. reflexivity.
Defined.

(** ** The further theorems at the inputs of the unit tests *)

Lemma fetch_success_witness :
  fetch_arrow (H := stub Downloaded) (P (PDict DEFAULT_FILE) true)
    (secrets DEFAULT_SECRET) PNone None "out" stale_world
  = (Return {| path := Some "out"; errors := [] |},
     {| files := <["out" := [x41]]> (files stale_world);
        requests := [mkRequest EXPORT_URL BEARER_HEADERS "out"] |}).
Proof.
  apply (fetch_success (H := stub Downloaded) (P (PDict DEFAULT_FILE) true)
           (secrets DEFAULT_SECRET) PNone None "out" stale_world
           (mkRequest EXPORT_URL BEARER_HEADERS "out")
           (<["out" := [x41]]> (files stale_world))).
  - vm_compute. reflexivity.
  - reflexivity.
Defined.

Lemma fetch_other_exception_propagates_witness :
  fetch_arrow (H := stub (Crashed (LibraryError "OSError")))
    (P (PDict DEFAULT_FILE) true) (secrets DEFAULT_SECRET) PNone None "out"
    stale_world
  = (Raise (LibraryError "OSError"),
     {| files := <["out" := [x41]]> (files stale_world);
        requests := [mkRequest EXPORT_URL BEARER_HEADERS "out"] |}).
Proof.
  apply (fetch_other_exception_propagates
           (H := stub (Crashed (LibraryError "OSError")))
           (P (PDict DEFAULT_FILE) true) (secrets DEFAULT_SECRET) PNone None
           "out" stale_world (mkRequest EXPORT_URL BEARER_HEADERS "out")
           (LibraryError "OSError") (<["out" := [x41]]> (files stale_world))).
  - vm_compute. reflexivity.
  - reflexivity.
Defined.

Lemma fetch_result_invariant_witness :
  path (failed_fetch "out" (i18n_message "error.params.noFile")) = Some "out" ∧
  ((errors (failed_fetch "out" (i18n_message "error.params.noFile")) = [] ∧
    ∃ request,
      requests (truncated "out" stale_world)
      = (requests stale_world ++ [request])%list ∧
      req_output request = "out") ∨
   (∃ m, errors (failed_fetch "out" (i18n_message "error.params.noFile"))
         = [ {| message := m; quick_fixes := [] |} ] ∧
         files (truncated "out" stale_world) !! "out" = Some [])).
Proof.
  apply (fetch_result_invariant (H := stub Downloaded) (P PNone true) ∅ PNone
           None "out" stale_world (truncated "out" stale_world)
           (failed_fetch "out" (i18n_message "error.params.noFile"))).
  vm_compute. reflexivity.
Defined.

Lemma fetch_without_request_frame_witness :
  (fetch_arrow (H := stub Downloaded) (P PNone true) ∅ PNone None "out"
     stale_world).2 = stale_world ∨
  (fetch_arrow (H := stub Downloaded) (P PNone true) ∅ PNone None "out"
     stale_world).2 = truncated "out" stale_world.
Proof.
  apply (fetch_without_request_frame (H := stub Downloaded) (P PNone true) ∅
           PNone None "out" stale_world).
  vm_compute. reflexivity.
Defined.

Lemma fetch_malformed_file_witness :
  fetch_arrow (H := stub Downloaded) ∅ (secrets DEFAULT_SECRET) PNone None
    "out" stale_world
  = (Raise (KeyError "file"), stale_world) ∧
  fetch_arrow (H := stub Downloaded) (P (PStr "1AR-sdfsdf") true)
    (secrets DEFAULT_SECRET) PNone None "out" stale_world
  = (Raise TypeError, stale_world) ∧
  fetch_arrow (H := stub Downloaded) (P (PDict FILE_WITHOUT_ID_KEY) true)
    (secrets DEFAULT_SECRET) PNone None "out" stale_world
  = (Raise (KeyError "id"), stale_world) ∧
  fetch_arrow (H := stub Downloaded) (P (PDict FILE_WITHOUT_ID) true)
    (secrets DEFAULT_SECRET) PNone None "out" stale_world
  = (Raise (RuntimeError "Missing file.id"), stale_world).
Proof.
  split; [| split; [| split]].
  - destruct (fetch_malformed_file (H := stub Downloaded) ∅
                (secrets DEFAULT_SECRET) PNone None "out" stale_world)
      as (Hmissing & _).
    apply Hmissing. reflexivity.
  - destruct (fetch_malformed_file (H := stub Downloaded)
                (P (PStr "1AR-sdfsdf") true) (secrets DEFAULT_SECRET) PNone
                None "out" stale_world)
      as (_ & Hother & _).
    apply (Hother (PStr "1AR-sdfsdf")).
    + vm_compute. reflexivity.
    + reflexivity.
    + discriminate.
  - destruct (fetch_malformed_file (H := stub Downloaded)
                (P (PDict FILE_WITHOUT_ID_KEY) true) (secrets DEFAULT_SECRET)
                PNone None "out" stale_world)
      as (_ & _ & Hkey & _).
    apply (Hkey FILE_WITHOUT_ID_KEY).
    + vm_compute. reflexivity.
    + vm_compute. discriminate.
    + vm_compute. reflexivity.
  - destruct (fetch_malformed_file (H := stub Downloaded)
                (P (PDict FILE_WITHOUT_ID) true) (secrets DEFAULT_SECRET)
                PNone None "out" stale_world)
      as (_ & _ & _ & Hempty).
    apply (Hempty FILE_WITHOUT_ID (PStr EmptyString)).
    + vm_compute. reflexivity.
    + vm_compute. reflexivity.
    + reflexivity.
Defined.

Lemma fetch_malformed_credential_witness :
  fetch_arrow (H := stub Downloaded) (P (PDict DEFAULT_FILE) true)
    (secrets NAME_ONLY_SECRET) PNone None "out" stale_world
  = (Raise AssertionError, stale_world) ∧
  fetch_arrow (H := stub Downloaded) (P (PDict DEFAULT_FILE) true)
    (secrets EMPTY_TOKEN_SECRET) PNone None "out" stale_world
  = (Raise (KeyError "token_type"), stale_world) ∧
  fetch_arrow (H := stub Downloaded) (P (PDict DEFAULT_FILE) true)
    (secrets TYPE_ONLY_SECRET) PNone None "out" stale_world
  = (Raise (KeyError "access_token"), stale_world).
Proof.
  split; [| split].
  - destruct (fetch_malformed_credential (H := stub Downloaded)
                (P (PDict DEFAULT_FILE) true) (secrets NAME_ONLY_SECRET)
                DEFAULT_FILE NAME_ONLY_SECRET DEFAULT_ID PNone None "out"
                stale_world (default_file_selected true))
      as (Hassert & _).
    + vm_compute. reflexivity.
    + vm_compute. discriminate.
    + vm_compute. reflexivity.
    + apply Hassert. vm_compute. reflexivity.
  - destruct (fetch_malformed_credential (H := stub Downloaded)
                (P (PDict DEFAULT_FILE) true) (secrets EMPTY_TOKEN_SECRET)
                DEFAULT_FILE EMPTY_TOKEN_SECRET DEFAULT_ID PNone None "out"
                stale_world (default_file_selected true))
      as (_ & Htype & _).
    + vm_compute. reflexivity.
    + vm_compute. discriminate.
    + vm_compute. reflexivity.
    + apply (Htype ∅).
      * vm_compute. reflexivity.
      * reflexivity.
  - destruct (fetch_malformed_credential (H := stub Downloaded)
                (P (PDict DEFAULT_FILE) true) (secrets TYPE_ONLY_SECRET)
                DEFAULT_FILE TYPE_ONLY_SECRET DEFAULT_ID PNone None "out"
                stale_world (default_file_selected true))
      as (_ & _ & Htoken).
    + vm_compute. reflexivity.
    + vm_compute. discriminate.
    + vm_compute. reflexivity.
    + apply (Htoken (<["token_type" := PStr "Bearer"]> ∅) (PStr "Bearer")).
      * vm_compute. reflexivity.
      * vm_compute. reflexivity.
      * vm_compute. reflexivity.
Defined.

Lemma untyped_secret_usable :
  credential_usable (secrets UNTYPED_SECRET) UNTYPED_CLIENT.
Proof.
  exists UNTYPED_SECRET,
    (<["access_token" := PStr "an-access-token"]>
       (<["token_type" := PNone]> ∅)).
  repeat split; vm_compute; reflexivity.
Defined.

Lemma fetch_token_failure_propagates_witness :
  fetch_arrow (H := stub Downloaded) (P (PDict DEFAULT_FILE) true)
    (secrets UNTYPED_SECRET) PNone None "out" stale_world
  = (Raise (LibraryError "ValueError"), stale_world).
Proof.
  apply (fetch_token_failure_propagates (H := stub Downloaded)
           (P (PDict DEFAULT_FILE) true) (secrets UNTYPED_SECRET) DEFAULT_FILE
           DEFAULT_ID PNone UNTYPED_CLIENT None "out" stale_world
           (LibraryError "ValueError") (default_file_selected true)
           untyped_secret_usable).
  vm_compute. reflexivity.
Defined.

Lemma fetch_error_needs_output_file_witness :
  fetch_arrow (H := stub Downloaded) (P PNone true) ∅ PNone None "out"
    empty_world
  = (Raise (FileNotFoundError "out"), empty_world) ∧
  fetch_arrow (H := stub Downloaded) (P (PDict DEFAULT_FILE) true) ∅ PNone
    None "out" empty_world
  = (Raise (FileNotFoundError "out"), empty_world).
Proof.
  split.
  - destruct (fetch_error_needs_output_file (H := stub Downloaded)
                (P PNone true) ∅ PNone None "out" empty_world eq_refl)
      as [Hfile _].
    apply (Hfile PNone); vm_compute; reflexivity.
  - destruct (fetch_error_needs_output_file (H := stub Downloaded)
                (P (PDict DEFAULT_FILE) true) ∅ PNone None "out" empty_world
                eq_refl)
      as [_ Hcredential].
    apply (Hcredential DEFAULT_FILE DEFAULT_ID).
    + exact (default_file_selected true).
    + vm_compute. reflexivity.
Defined.

Lemma fetch_reads_file_and_credential_only_witness :
  fetch_arrow (H := stub Downloaded) (P (PDict DEFAULT_FILE) true)
    (secrets DEFAULT_SECRET) PNone None "out" stale_world
  = fetch_arrow (H := stub Downloaded)
      (<["version_select" := PStr "2"]> (P (PDict DEFAULT_FILE) false))
      (<["other" := PNone]> (secrets DEFAULT_SECRET))
      (PStr "last") (Some "input.parquet") "out" stale_world.
Proof.
  apply (fetch_reads_file_and_credential_only (H := stub Downloaded)).
  - vm_compute. reflexivity.
  - vm_compute. reflexivity.
Defined.

Lemma calculate_mime_type_first_match_witness :
  _calculate_mime_type (H := stub Downloaded) "text/csv; charset=utf-8"
  = Return "text/csv" ∧
  _calculate_mime_type (H := stub Downloaded) "text/html"
  = Raise (RuntimeError "Unsupported content_type text/html").
Proof.
  split.
  - destruct (calculate_mime_type_first_match (H := stub Downloaded)
                "text/csv; charset=utf-8") as [Hfirst _].
    apply Hfirst.
    exists [], ["text/tab-separated-values"; "text/plain"; "application/json";
                "application/vnd.ms-excel"].
    split; [reflexivity |]. split; [reflexivity | constructor].
  - destruct (calculate_mime_type_first_match (H := stub Downloaded)
                "text/html") as [_ Hnone].
    apply Hnone. repeat constructor.
Defined.

Lemma calculate_mime_type_accepts_parameters_witness :
  ∃ found : string,
    _calculate_mime_type (H := stub Downloaded)
      ("application/vnd.ms-excel" ++ "; charset=latin-1")
    = Return found ∧
    In found (MimeType (Collaborators := stub Downloaded)) ∧
    String.prefix found ("application/vnd.ms-excel" ++ "; charset=latin-1")
    = true.
Proof.
  apply (calculate_mime_type_accepts_parameters (H := stub Downloaded)
           "application/vnd.ms-excel" "; charset=latin-1").
  simpl. tauto.
Defined.

Lemma stored_result_no_legacy_signature
    (headers : list (string * string)) (convertible : bool) (w : World) :
  no_legacy_signature (H := stub_render headers convertible) STORED_RESULT
    (with_stored w).
Proof.
  unfold no_legacy_signature. simpl. rewrite lookup_insert_eq. reflexivity.
Defined.

Lemma render_parses_stored_body_witness :
  render (H := stub_render [("Content-Type", "text/csv; charset=utf-8")] true)
    PNone (P (PDict DEFAULT_FILE) true) "out" (Some STORED_RESULT)
    (with_stored fresh_world)
  = (Return [],
     {| files := <["out" := CSV_BYTES]> (files (with_stored fresh_world));
        requests := [] |}).
Proof.
  apply (render_parses_stored_body
           (H := stub_render [("Content-Type", "text/csv; charset=utf-8")] true)
           PNone (P (PDict DEFAULT_FILE) true) "out" STORED_RESULT
           (with_stored fresh_world)
           [("Content-Type", "text/csv; charset=utf-8")] CSV_BYTES
           "text/csv; charset=utf-8" "text/csv" (PBool true)).
  - reflexivity.
  - apply stored_result_no_legacy_signature.
  - vm_compute. reflexivity.
  - reflexivity.
  - reflexivity.
  - vm_compute. reflexivity.
  - reflexivity.
Defined.

Lemma render_stored_body_failures_witness :
  render (H := stub Downloaded) PNone (P (PDict DEFAULT_FILE) true) "out"
    (Some {| path := None; errors := [] |}) stale_world
  = (Raise TypeError, stale_world) ∧
  render (H := stub_render [] true) PNone (P (PDict DEFAULT_FILE) true) "out"
    (Some STORED_RESULT) (with_stored stale_world)
  = (Raise AttributeError, with_stored stale_world) ∧
  render (H := stub_render [("Content-Type", "text/html")] true) PNone
    (P (PDict DEFAULT_FILE) true) "out" (Some STORED_RESULT)
    (with_stored stale_world)
  = (Raise (RuntimeError "Unsupported content_type text/html"),
     with_stored stale_world) ∧
  render (H := stub_render [("Content-Type", "text/csv")] true) PNone ∅ "out"
    (Some STORED_RESULT) (with_stored stale_world)
  = (Raise (KeyError "has_header"), with_stored stale_world).
Proof.
  split; [| split; [| split]].
  - destruct (render_stored_body_failures (H := stub Downloaded) PNone
                (P (PDict DEFAULT_FILE) true) "out"
                {| path := None; errors := [] |} stale_world eq_refl I)
      as [Hread _].
    apply Hread. reflexivity.
  - destruct (render_stored_body_failures (H := stub_render [] true) PNone
                (P (PDict DEFAULT_FILE) true) "out" STORED_RESULT
                (with_stored stale_world) eq_refl
                (stored_result_no_legacy_signature [] true stale_world))
      as [_ Hheaders].
    destruct (Hheaders [] CSV_BYTES) as [Hnone _].
    + vm_compute. reflexivity.
    + apply Hnone. reflexivity.
  - destruct (render_stored_body_failures
                (H := stub_render [("Content-Type", "text/html")] true) PNone
                (P (PDict DEFAULT_FILE) true) "out" STORED_RESULT
                (with_stored stale_world) eq_refl
                (stored_result_no_legacy_signature _ true stale_world))
      as [_ Hheaders].
    destruct (Hheaders [("Content-Type", "text/html")] CSV_BYTES)
      as [_ Htype].
    + vm_compute. reflexivity.
    + destruct (Htype "text/html" eq_refl) as [Hunsupported _].
      apply Hunsupported. repeat constructor.
  - destruct (render_stored_body_failures
                (H := stub_render [("Content-Type", "text/csv")] true) PNone
                ∅ "out" STORED_RESULT (with_stored stale_world) eq_refl
                (stored_result_no_legacy_signature _ true stale_world))
      as [_ Hheaders].
    destruct (Hheaders [("Content-Type", "text/csv")] CSV_BYTES)
      as [_ Htype].
    + vm_compute. reflexivity.
    + destruct (Htype "text/csv" eq_refl) as [_ Hparams].
      apply (Hparams "text/csv"); reflexivity.
Defined.

Lemma render_deprecated_parquet_failures_witness :
  render (H := stub Downloaded) PNone ∅ "out" (Some LEGACY_RESULT)
    (with_fetched stale_world)
  = (Raise (KeyError "has_header"),
     {| files := <["out" := LEGACY_BYTES]> (files (with_fetched stale_world));
        requests := [] |}) ∧
  render (H := stub_render [] false) PNone (P (PDict DEFAULT_FILE) true) "out"
    (Some LEGACY_RESULT) (with_fetched stale_world)
  = (Raise (LibraryError "ArrowInvalid"), with_fetched stale_world).
Proof.
  split.
  - destruct (render_deprecated_parquet_failures (H := stub Downloaded) PNone
                ∅ "out" LEGACY_RESULT "legacy" (with_fetched stale_world))
      as [Hparams _].
    + reflexivity.
    + vm_compute. reflexivity.
    + apply (Hparams (<["out" := LEGACY_BYTES]>
                        (files (with_fetched stale_world)))).
      * vm_compute. reflexivity.
      * reflexivity.
  - destruct (render_deprecated_parquet_failures (H := stub_render [] false)
                PNone (P (PDict DEFAULT_FILE) true) "out" LEGACY_RESULT
                "legacy" (with_fetched stale_world))
      as [_ Hconvert].
    + reflexivity.
    + vm_compute. reflexivity.
    + apply (Hconvert (LibraryError "ArrowInvalid")
               (files (with_fetched stale_world))).
      reflexivity.
Defined.

Lemma render_reads_has_header_only_witness :
  render (H := stub Downloaded) PNone (P (PDict DEFAULT_FILE) false) "out"
    (Some LEGACY_RESULT) (with_fetched stale_world)
  = render (H := stub Downloaded) (PList [])
      (<["version_select" := PStr "2"]> (P PNone false)) "out"
      (Some LEGACY_RESULT) (with_fetched stale_world).
Proof.
  apply (render_reads_has_header_only (H := stub Downloaded)).
  vm_compute. reflexivity.
Defined.

Lemma migrate_params_v0_keys_witness :
  dom (params_v1 (PBool false) (PStr EmptyString) (PDict ∅))
  = ({["has_header"; "version_select"; "file"]} : gset string) ∧
  params_v1 (PBool false) (PStr EmptyString) (PDict ∅) !! "has_header"
  = V0_PARAMS_WITH_EXTRA "{}" !! "has_header" ∧
  params_v1 (PBool false) (PStr EmptyString) (PDict ∅) !! "version_select"
  = V0_PARAMS_WITH_EXTRA "{}" !! "version_select".
Proof.
  apply (migrate_params_v0_keys (H := stub Downloaded)
           (V0_PARAMS_WITH_EXTRA "{}")).
  - exists (PStr "{}"). vm_compute. reflexivity.
  - vm_compute. reflexivity.
Defined.

Lemma migrate_params_v0_failures_witness :
  migrate_params (H := stub Downloaded) (V0_PARAMS "not json")
  = Raise (LibraryError "JSONDecodeError") ∧
  migrate_params (H := stub Downloaded)
    (<["googlefileselect" := PStr "{}"]> ∅)
  = Raise (KeyError "has_header") ∧
  migrate_params (H := stub Downloaded)
    (<["googlefileselect" := PStr EmptyString]>
       (<["has_header" := PBool true]> ∅))
  = Raise (KeyError "version_select").
Proof.
  split; [| split].
  - destruct (migrate_params_v0_failures (H := stub Downloaded)
                (V0_PARAMS "not json") (PStr "not json"))
      as [Hjson _].
    + vm_compute. reflexivity.
    + apply Hjson; reflexivity.
  - destruct (migrate_params_v0_failures (H := stub Downloaded)
                (<["googlefileselect" := PStr "{}"]> ∅) (PStr "{}"))
      as [_ Hkeys].
    + vm_compute. reflexivity.
    + destruct Hkeys as [Hheader _].
      * right. exists (PDict ∅). reflexivity.
      * apply Hheader. vm_compute. reflexivity.
  - destruct (migrate_params_v0_failures (H := stub Downloaded)
                (<["googlefileselect" := PStr EmptyString]>
                   (<["has_header" := PBool true]> ∅)) (PStr EmptyString))
      as [_ Hkeys].
    + vm_compute. reflexivity.
    + destruct Hkeys as [_ Hversion].
      * left. reflexivity.
      * apply Hversion.
        -- exists (PBool true). vm_compute. reflexivity.
        -- vm_compute. reflexivity.
Defined.

Lemma migrate_params_v0_empty_selection_witness :
  migrate_params (H := stub Downloaded)
    (<["googlefileselect" := PNone]> (V0_PARAMS "{}"))
  = Return (params_v1 (PBool false) (PStr EmptyString) PNone).
Proof.
  apply (migrate_params_v0_empty_selection (H := stub Downloaded)
           (<["googlefileselect" := PNone]> (V0_PARAMS "{}")) PNone).
  - vm_compute. reflexivity.
  - reflexivity.
  - vm_compute. reflexivity.
  - vm_compute. reflexivity.
Defined.

Lemma download_urls_distinguish_ids_witness :
  _generate_google_sheet_url (H := stub Downloaded) (PStr "1AR-sdfsdf")
  ≠ _generate_google_sheet_url (H := stub Downloaded) (PStr "1MJsdfwer") ∧
  _generate_gdrive_file_url (H := stub Downloaded) (PStr "1AR-sdfsdf")
  ≠ _generate_gdrive_file_url (H := stub Downloaded) (PStr "1MJsdfwer").
Proof.
  apply (download_urls_distinguish_ids (H := stub Downloaded) "1AR-sdfsdf"
           "1MJsdfwer").
  discriminate.
Defined.

Lemma fetch_malformed_stored_error_witness :
  fetch_arrow (H := stub Downloaded) (P (PDict DEFAULT_FILE) true)
    (secrets TEXT_ERROR_SECRET) PNone None "out" stale_world
  = (Raise TypeError, stale_world) ∧
  fetch_arrow (H := stub Downloaded) (P (PDict DEFAULT_FILE) true)
    (secrets FOREIGN_ERROR_SECRET) PNone None "out" stale_world
  = (Raise TypeError, stale_world).
Proof.
  split.
  - apply (fetch_malformed_stored_error (H := stub Downloaded)
             (P (PDict DEFAULT_FILE) true) (secrets TEXT_ERROR_SECRET)
             DEFAULT_FILE TEXT_ERROR_SECRET DEFAULT_ID (PStr "invalid_grant")).
    + exact (default_file_selected true).
    + vm_compute. reflexivity.
    + vm_compute. reflexivity.
    + left. discriminate.
  - apply (fetch_malformed_stored_error (H := stub Downloaded)
             (P (PDict DEFAULT_FILE) true) (secrets FOREIGN_ERROR_SECRET)
             DEFAULT_FILE FOREIGN_ERROR_SECRET DEFAULT_ID
             (PDict FOREIGN_ERROR)).
    + exact (default_file_selected true).
    + vm_compute. reflexivity.
    + vm_compute. reflexivity.
    + right. exists FOREIGN_ERROR, "description".
      split; [reflexivity |]. split; [| repeat split; discriminate].
      exists (PStr "Token has been expired or revoked.").
      vm_compute. reflexivity.
Defined.
